(** * inventory.py: products, the inventory store and its persistence

    A shallow embedding of [src/inventory.py]: the [Product] hierarchy
    ([Electronics], [Grocery], [Clothing]), the [Inventory] manager and the
    JSON codec of [save_to_file] / [load_from_file].

    Conventions.
    - A method that mutates [self] is a function from the state before the
      call to an outcome and the state after it.  A raised exception keeps
      the mutations made before the [raise], as in Python.
    - Fields annotated in [Product.__init__] carry the annotated type
      ([str], [str], [float], [int]); fields the source leaves unannotated
      ([brand], [warranty_years], [size], [material]) hold any JSON value.
    - Strings are byte strings; a file is represented by the JSON document
      that [json.dump] wrote into it. *)

From Stdlib Require Import ZArith List String Ascii Bool Lia Eqdep_dec.
From Stdlib Require Import Floats.SpecFloat.
Import ListNotations.
Local Open Scope string_scope.
Local Open Scope Z_scope.

(** ** Exceptions *)

(** The four [InventoryError] subclasses of the source, and the built-in
    exceptions its statements can raise. *)
Inductive exn : Type :=
| DuplicateProductIDError
| ProductNotFoundError
| InsufficientStockError
| InvalidProductDataError
| KeyError (key : string)
| ValueError
| TypeError
| AttributeError
| FileNotFoundError
| JSONDecodeError
| UnicodeDecodeError.

(** [class InventoryError(Exception)] and its subclasses (lines 9-14). *)
Definition is_InventoryError (e : exn) : bool :=
  match e with
  | DuplicateProductIDError | ProductNotFoundError
  | InsufficientStockError | InvalidProductDataError => true
  | _ => false
  end.

(** What a call does: it returns, it raises, or it returns a Python object
    that breaks the annotations of [Product.__init__] ([IllTyped]): Python
    performs no check there, and no value of the typed records below stands
    for such an object, so the embedding stops following the run.  A
    statement about a run that ends in [Return] or [Raise] is a statement
    about the code; [IllTyped] says nothing about it. *)
Inductive outcome (A : Type) : Type :=
| Return (a : A)
| Raise (e : exn)
| IllTyped.
Arguments Return {A} a.
Arguments Raise {A} e.
Arguments IllTyped {A}.

(** A computation over a mutable state [S]. *)
Definition M (S A : Type) : Type := S -> outcome A * S.

Definition ret {S A} (a : A) : M S A := fun s => (Return a, s).
Definition bind {S A B} (m : M S A) (k : A -> M S B) : M S B :=
  fun s =>
    match m s with
    | (Return a, s') => k a s'
    | (Raise e, s') => (Raise e, s')
    | (IllTyped, s') => (IllTyped, s')
    end.
Definition get {S} : M S S := fun s => (Return s, s).
Definition put {S} (s : S) : M S unit := fun _ => (Return tt, s).
(** A pure step that may raise. *)
Definition lift {S A} (o : outcome A) : M S A := fun s => (o, s).

Declare Scope py_scope.
Delimit Scope py_scope with py.
Notation "x <- m ;; k" := (bind m (fun x => k))
  (at level 61, m at next level, right associativity) : py_scope.
Notation "m ;; k" := (bind m (fun _ => k))
  (at level 61, right associativity) : py_scope.

(** Binding of pure steps. *)
Definition obind {A B} (o : outcome A) (k : A -> outcome B) : outcome B :=
  match o with
  | Return a => k a
  | Raise e => Raise e
  | IllTyped => IllTyped
  end.

(** ** Python dictionaries

    A [dict] keeps its entries in insertion order and holds a key once.  It
    is an association list; [dict_wf] says that no key occurs twice, which
    every operation below preserves. *)
Section Dict.
Context {V : Type}.

Definition dict : Type := list (string * V).

Definition dict_empty : dict := [].

(** [d.get(k)] *)
Fixpoint dict_get (k : string) (d : dict) : option V :=
  match d with
  | [] => None
  | (k', v) :: d' => if String.eqb k k' then Some v else dict_get k d'
  end.

(** [k in d] *)
Definition dict_contains (k : string) (d : dict) : bool :=
  match dict_get k d with Some _ => true | None => false end.

(** [d[k] = v]: an existing key keeps its place, a new key goes last. *)
Fixpoint dict_set (k : string) (v : V) (d : dict) : dict :=
  match d with
  | [] => [(k, v)]
  | (k', v') :: d' =>
      if String.eqb k k' then (k', v) :: d' else (k', v') :: dict_set k v d'
  end.

(** [del d[k]] for a key that is present. *)
Fixpoint dict_del (k : string) (d : dict) : dict :=
  match d with
  | [] => []
  | (k', v') :: d' =>
      if String.eqb k k' then d' else (k', v') :: dict_del k d'
  end.

Definition dict_keys (d : dict) : list string := map fst d.
Definition dict_values (d : dict) : list V := map snd d.

Definition dict_wf (d : dict) : Prop := NoDup (dict_keys d).
End Dict.
Arguments dict V : clear implicits.

(** ** JSON values, as [json.load] returns them *)

Inductive number : Type :=
| NInt (z : Z)
| NFloat (f : spec_float).

#[warnings="-register-all"]
Inductive json : Type :=
| JNull
| JBool (b : bool)
| JInt (z : Z)
| JFloat (f : spec_float)
| JStr (s : string)
| JArr (items : list json)
| JObj (fields : list (string * json)).

(** ** Calendar dates ([datetime.date]) *)

Definition is_leap (y : Z) : bool :=
  ((y mod 4 =? 0) && negb (y mod 100 =? 0)) || (y mod 400 =? 0).

Definition days_in_month (y m : Z) : Z :=
  if m =? 2 then (if is_leap y then 29 else 28)
  else if (m =? 4) || (m =? 6) || (m =? 9) || (m =? 11) then 30
  else 31.

(** The dates a [date] object can hold: years 1 to 9999. *)
Definition valid_ymd (y m d : Z) : bool :=
  (1 <=? y) && (y <=? 9999) && (1 <=? m) && (m <=? 12)
  && (1 <=? d) && (d <=? days_in_month y m).

Record date : Type := mkdate {
  year : Z;
  month : Z;
  day : Z;
  date_ok : valid_ymd year month day = true
}.

(** [datetime.date(y, m, d)]: [None] stands for its [ValueError]. *)
Definition make_date (y m d : Z) : option date :=
  match valid_ymd y m d as b return valid_ymd y m d = b -> option date with
  | true => fun H => Some (mkdate y m d H)
  | false => fun _ => None
  end eq_refl.

(** [a > b] on dates compares year, month and day in that order. *)
Definition date_gt (a b : date) : bool :=
  (year b <? year a)
  || ((year a =? year b)
      && ((month b <? month a)
          || ((month a =? month b) && (day b <? day a)))).

(** ** [strptime(s, "%Y-%m-%d")] and [date.isoformat()]

    [strptime] turns the format into the regular expression
    [(\d\d\d\d)-(1[0-2]|0[1-9]|[1-9])-(3[0-1]|[1-2]\d|0[1-9]|[1-9]| [1-9])],
    matches it at the start of the text, rejects text left over after the
    match, and builds the date from the three groups; [\d] is read as the
    ten ASCII digits.  The matcher below
    tries the alternatives of a group in the order they are written and
    falls back to the next one when the rest of the expression fails. *)

(** The value of a digit character; the digits are the codes 48 to 57. *)
Definition digit_val (c : ascii) : option Z :=
  let code := Z.of_nat (nat_of_ascii c) in
  if (48 <=? code) && (code <=? 57) then Some (code - 48) else None.

(** The character class [[lo-hi]] of digits. *)
Definition digit_in (lo hi : Z) (c : ascii) : option Z :=
  match digit_val c with
  | Some v => if (lo <=? v) && (v <=? hi) then Some v else None
  | None => None
  end.

Definition orelse {A} (a b : option A) : option A :=
  match a with Some _ => a | None => b end.

Section Regex.
Context {R : Type}.

(** A literal character. *)
Definition re_lit (c : ascii) (k : string -> option R) (s : string)
  : option R :=
  match s with
  | String c' s' => if Ascii.eqb c c' then k s' else None
  | EmptyString => None
  end.

(** One digit of [[lo-hi]]. *)
Definition re_class (lo hi : Z) (k : Z -> string -> option R) (s : string)
  : option R :=
  match s with
  | String c s' =>
      match digit_in lo hi c with Some v => k v s' | None => None end
  | EmptyString => None
  end.

(** [%Y]: [\d\d\d\d]. *)
Definition re_Y (k : Z -> string -> option R) : string -> option R :=
  re_class 0 9 (fun a => re_class 0 9 (fun b => re_class 0 9 (fun c =>
    re_class 0 9 (fun d => k (1000 * a + 100 * b + 10 * c + d))))).

(** [%m]: [1[0-2]|0[1-9]|[1-9]]. *)
Definition re_m (k : Z -> string -> option R) (s : string) : option R :=
  orelse (re_lit "1" (re_class 0 2 (fun v => k (10 + v))) s)
 (orelse (re_lit "0" (re_class 1 9 k) s)
         (re_class 1 9 k s)).

(** [%d]: [3[0-1]|[1-2]\d|0[1-9]|[1-9]| [1-9]]. *)
Definition re_d (k : Z -> string -> option R) (s : string) : option R :=
  orelse (re_lit "3" (re_class 0 1 (fun v => k (30 + v))) s)
 (orelse (re_class 1 2 (fun t => re_class 0 9 (fun v => k (10 * t + v))) s)
 (orelse (re_lit "0" (re_class 1 9 k) s)
 (orelse (re_class 1 9 k s)
         (re_lit " " (re_class 1 9 k) s)))).
End Regex.

(** The match of the whole format: year, month, day and the text after the
    match. *)
Definition match_format (s : string) : option (Z * Z * Z * string) :=
  re_Y (fun y => re_lit "-" (re_m (fun m => re_lit "-" (re_d (fun d rest =>
    Some (y, m, d, rest)))))) s.

(** [datetime.strptime(s, "%Y-%m-%d").date()] for a string [s]. *)
Definition strptime (s : string) : outcome date :=
  match match_format s with
  | None => Raise ValueError
  | Some (y, m, d, EmptyString) =>
      match make_date y m d with
      | Some dt => Return dt
      | None => Raise ValueError
      end
  | Some (_, _, _, String _ _) => Raise ValueError
  end.

(** The same call on any value: only a [str] is accepted. *)
Definition strptime_value (v : json) : outcome date :=
  match v with
  | JStr s => strptime s
  | _ => Raise TypeError
  end.

(** The character of a digit [0 <= n <= 9]. *)
Definition digit_char (n : Z) : ascii := ascii_of_nat (Z.to_nat (48 + n)).

(** ["%02d" % n] for [0 <= n < 100] and ["%04d" % n] for [0 <= n < 10000]. *)
Definition fmt2 (n : Z) (rest : string) : string :=
  String (digit_char (n / 10)) (String (digit_char (n mod 10)) rest).
Definition fmt4 (n : Z) (rest : string) : string :=
  String (digit_char (n / 1000)) (String (digit_char (n / 100 mod 10))
    (String (digit_char (n / 10 mod 10)) (String (digit_char (n mod 10)) rest))).

(** [d.isoformat()], that is ["%04d-%02d-%02d" % (year, month, day)]. *)
Definition isoformat (d : date) : string :=
  fmt4 (year d) (String "-" (fmt2 (month d) (String "-" (fmt2 (day d) "")))).

(** ** Products (lines 18-122) *)

(** The fields a subclass adds.  A [Grocery] holds the parsed date. *)
Inductive details : Type :=
| Electronics (brand warranty_years : json)
| Grocery (expiry_date : date)
| Clothing (size material : json).

Record Product : Type := mkProduct {
  _product_id : string;
  _name : string;
  _price : number;
  _quantity_in_stock : Z;
  subclass : details
}.

(** The three classes, as the values of [product_map]. *)
Inductive class : Type :=
| ElectronicsClass
| GroceryClass
| ClothingClass.

(** [p.__class__] *)
Definition class_of (p : Product) : class :=
  match subclass p with
  | Electronics _ _ => ElectronicsClass
  | Grocery _ => GroceryClass
  | Clothing _ _ => ClothingClass
  end.

(** [p.__class__.__name__], the value [to_dict] stores under ["type"]. *)
Definition class_name (c : class) : string :=
  match c with
  | ElectronicsClass => "Electronics"
  | GroceryClass => "Grocery"
  | ClothingClass => "Clothing"
  end.

(** [isinstance(p, Grocery)] *)
Definition is_Grocery (p : Product) : bool :=
  match subclass p with Grocery _ => true | _ => false end.

Definition set_quantity (q : Z) (self : Product) : Product :=
  mkProduct (_product_id self) (_name self) (_price self) q (subclass self).

(** [Product.restock] (lines 25-26). *)
Definition restock (amount : Z) : M Product unit :=
  fun self => (Return tt, set_quantity (_quantity_in_stock self + amount) self).

(** [Product.sell] (lines 28-31). *)
Definition sell (quantity : Z) : M Product unit :=
  fun self =>
    if quantity >? _quantity_in_stock self
    then (Raise InsufficientStockError, self)
    else (Return tt, set_quantity (_quantity_in_stock self - quantity) self).

(** *** Constructors

    The arguments are Python values.  [Product_init] yields the four base
    fields when they have the annotated types; a [bool] is not taken for an
    [int], and [float] admits an [int]. *)
Definition as_str (v : json) : outcome string :=
  match v with JStr s => Return s | _ => IllTyped end.
Definition as_int (v : json) : outcome Z :=
  match v with JInt z => Return z | _ => IllTyped end.
Definition as_number (v : json) : outcome number :=
  match v with
  | JInt z => Return (NInt z)
  | JFloat f => Return (NFloat f)
  | _ => IllTyped
  end.

(** [Product.__init__] (lines 19-23). *)
Definition Product_init (product_id name price quantity_in_stock : json)
    (sub : details) : outcome Product :=
  obind (as_str product_id) (fun i =>
  obind (as_str name) (fun n =>
  obind (as_number price) (fun p =>
  obind (as_int quantity_in_stock) (fun q =>
  Return (mkProduct i n p q sub))))).

(** [Electronics.__init__] (lines 49-52). *)
Definition Electronics_init (product_id name price quantity brand
    warranty_years : json) : outcome Product :=
  Product_init product_id name price quantity (Electronics brand warranty_years).

(** [Grocery.__init__] (lines 74-76).  [strptime] raises whatever the other
    arguments are, so its exception comes before [IllTyped]. *)
Definition Grocery_init (product_id name price quantity expiry_date : json)
    : outcome Product :=
  obind (strptime_value expiry_date) (fun d =>
  Product_init product_id name price quantity (Grocery d)).

(** [Clothing.__init__] (lines 101-104). *)
Definition Clothing_init (product_id name price quantity size material : json)
    : outcome Product :=
  Product_init product_id name price quantity (Clothing size material).

(** *** The codec: [to_dict] and [from_dict] *)

Definition json_of_number (n : number) : json :=
  match n with NInt z => JInt z | NFloat f => JFloat f end.

(** [to_dict] of the three classes (lines 57-66, 85-93, 109-118). *)
Definition to_dict (self : Product) : dict json :=
  match subclass self with
  | Electronics brand warranty_years =>
      [ ("type", JStr "Electronics");
        ("product_id", JStr (_product_id self));
        ("name", JStr (_name self));
        ("price", json_of_number (_price self));
        ("quantity", JInt (_quantity_in_stock self));
        ("brand", brand);
        ("warranty_years", warranty_years) ]
  | Grocery expiry_date =>
      [ ("type", JStr "Grocery");
        ("product_id", JStr (_product_id self));
        ("name", JStr (_name self));
        ("price", json_of_number (_price self));
        ("quantity", JInt (_quantity_in_stock self));
        ("expiry_date", JStr (isoformat expiry_date)) ]
  | Clothing size material =>
      [ ("type", JStr "Clothing");
        ("product_id", JStr (_product_id self));
        ("name", JStr (_name self));
        ("price", json_of_number (_price self));
        ("quantity", JInt (_quantity_in_stock self));
        ("size", size);
        ("material", material) ]
  end.

(** [data[key]] *)
Definition getitem (key : string) (data : dict json) : outcome json :=
  match dict_get key data with
  | Some v => Return v
  | None => Raise (KeyError key)
  end.

(** [cls.from_dict(data)] (lines 68-70, 95-97, 120-122): the subscripts are
    evaluated from left to right, then the constructor is called. *)
Definition from_dict (cls : class) (data : dict json) : outcome Product :=
  obind (getitem "product_id" data) (fun product_id =>
  obind (getitem "name" data) (fun name =>
  obind (getitem "price" data) (fun price =>
  obind (getitem "quantity" data) (fun quantity =>
  match cls with
  | ElectronicsClass =>
      obind (getitem "brand" data) (fun brand =>
      obind (getitem "warranty_years" data) (fun warranty_years =>
      Electronics_init product_id name price quantity brand warranty_years))
  | GroceryClass =>
      obind (getitem "expiry_date" data) (fun expiry_date =>
      Grocery_init product_id name price quantity expiry_date)
  | ClothingClass =>
      obind (getitem "size" data) (fun size =>
      obind (getitem "material" data) (fun material =>
      Clothing_init product_id name price quantity size material))
  end)))).

(** [Grocery.is_expired] (lines 78-79); [today] is [datetime.now().date()]. *)
Definition is_expired (today : date) (expiry_date : date) : bool :=
  date_gt today expiry_date.

(** [isinstance(p, Grocery) and p.is_expired()] *)
Definition expired_grocery (today : date) (p : Product) : bool :=
  match subclass p with
  | Grocery expiry_date => is_expired today expiry_date
  | _ => false
  end.

(** ** The inventory (lines 126-191) *)

Record Inventory : Type := mkInventory {
  _products : dict Product
}.

(** [Inventory.__init__] (lines 127-128). *)
Definition Inventory_init : Inventory := mkInventory dict_empty.

(** [add_product] (lines 130-133). *)
Definition add_product (product : Product) : M Inventory unit :=
  fun self =>
    if dict_contains (_product_id product) (_products self)
    then (Raise DuplicateProductIDError, self)
    else (Return tt,
          mkInventory (dict_set (_product_id product) product (_products self))).

(** [remove_product] (lines 135-138). *)
Definition remove_product (product_id : string) : M Inventory unit :=
  fun self =>
    if negb (dict_contains product_id (_products self))
    then (Raise ProductNotFoundError, self)
    else (Return tt, mkInventory (dict_del product_id (_products self))).

(** The common shape of lines 150-153 and 156-159:
    [product = self._products.get(product_id)], [ProductNotFoundError] when
    there is none, else the call of a method on that object, which is
    mutated where it is in the dictionary. *)
Definition on_product {A} (product_id : string) (method : M Product A)
    : M Inventory A :=
  fun self =>
    match dict_get product_id (_products self) with
    | None => (Raise ProductNotFoundError, self)
    | Some product =>
        let (r, product') := method product in
        (r, mkInventory (dict_set product_id product' (_products self)))
    end.

(** [sell_product] (lines 149-153). *)
Definition sell_product (product_id : string) (quantity : Z)
    : M Inventory unit :=
  on_product product_id (sell quantity).

(** [restock_product] (lines 155-159). *)
Definition restock_product (product_id : string) (quantity : Z)
    : M Inventory unit :=
  on_product product_id (restock quantity).

(** [list_all_products] (lines 146-147). *)
Definition list_all_products (self : Inventory) : list Product :=
  dict_values (_products self).

(** [del d[k]], with its [KeyError]. *)
Definition delitem {V} (k : string) : M (dict V) unit :=
  fun d =>
    if dict_contains k d then (Return tt, dict_del k d)
    else (Raise (KeyError k), d).

(** [for pid in ids: del d[pid]] *)
Fixpoint del_all {V} (ids : list string) : M (dict V) unit :=
  match ids with
  | [] => ret tt
  | pid :: ids' => (delitem pid ;; del_all ids')%py
  end.

(** The comprehension of line 165. *)
Definition expired_ids (today : date) (d : dict Product) : list string :=
  map fst (filter (fun kv => expired_grocery today (snd kv)) d).

(** [remove_expired_products] (lines 164-167), with the clock reading
    [today] for the whole sweep. *)
Definition remove_expired_products (today : date) : M Inventory unit :=
  fun self =>
    let (r, d) := del_all (expired_ids today (_products self)) (_products self) in
    (r, mkInventory d).

(** *** Files

    A file that [json.load] accepts is the document it decodes to.  Of the
    other files, one whose bytes [open(filename, "r")] cannot decode as text
    makes the read raise [UnicodeDecodeError], and one whose text is not JSON
    makes [json.load] raise [JSONDecodeError].  Opening a file that is there
    and writing a file are taken to succeed. *)
Inductive file : Type :=
| JsonFile (document : json)
| NotJsonFile
| UndecodableFile.

Definition filesystem : Type := string -> option file.

Definition write_file (filename : string) (f : file) (fs : filesystem)
    : filesystem :=
  fun name => if String.eqb name filename then Some f else fs name.

(** [open(filename, "r")] followed by [json.load(f)] (lines 175-176). *)
Definition read_json (fs : filesystem) (filename : string) : outcome json :=
  match fs filename with
  | None => Raise FileNotFoundError
  | Some NotJsonFile => Raise JSONDecodeError
  | Some UndecodableFile => Raise UnicodeDecodeError
  | Some (JsonFile document) => Return document
  end.

(** [save_to_file] (lines 169-172): the store is left as it is, the file
    receives the list of the products' dictionaries. *)
Definition save_to_file (filename : string) (self : Inventory)
    (fs : filesystem) : filesystem :=
  let data := map (fun p => JObj (to_dict p)) (dict_values (_products self)) in
  write_file filename (JsonFile (JArr data)) fs.

(** [product_map.get(ptype)] (lines 178-182, 187): a list or a dictionary
    cannot be hashed; any other value that is not one of the three names
    gives [None]. *)
Definition product_map_get (ptype : json) : outcome (option class) :=
  match ptype with
  | JStr s =>
      if String.eqb s "Electronics" then Return (Some ElectronicsClass)
      else if String.eqb s "Grocery" then Return (Some GroceryClass)
      else if String.eqb s "Clothing" then Return (Some ClothingClass)
      else Return None
  | JArr _ | JObj _ => Raise TypeError
  | _ => Return None
  end.

(** [item.get("type")] (line 186): only a dictionary has [get]. *)
Definition item_get_type (item : json) : outcome json :=
  match item with
  | JObj fields =>
      match dict_get "type" fields with
      | Some v => Return v
      | None => Return JNull
      end
  | _ => Raise AttributeError
  end.

(** Lines 186-190: the product built from one item of the file. *)
Definition load_item (item : json) : outcome Product :=
  obind (item_get_type item) (fun ptype =>
  obind (product_map_get ptype) (fun cls =>
  match cls with
  | None => Raise InvalidProductDataError
  | Some c =>
      match item with
      | JObj fields => from_dict c fields
      | _ => Raise AttributeError
      end
  end)).

(** Line 191 hashes the id of the product.  The ids of the typed records are
    strings; when the product built from [item] is outside them and its id,
    [item["product_id"]], is a list or a dictionary, the assignment raises
    [TypeError]. *)
Definition hash_product_id (item : json) (product : outcome Product)
    : outcome Product :=
  match product with
  | IllTyped =>
      match item with
      | JObj fields =>
          match dict_get "product_id" fields with
          | Some (JArr _) | Some (JObj _) => Raise TypeError
          | _ => IllTyped
          end
      | _ => IllTyped
      end
  | _ => product
  end.

(** The loop of lines 185-191 over the items of [data]. *)
Fixpoint load_items (items : list json) : M (dict Product) unit :=
  match items with
  | [] => ret tt
  | item :: items' =>
      (product <- lift (hash_product_id item (load_item item)) ;;
       d <- get ;;
       put (dict_set (_product_id product) product d) ;;
       load_items items')%py
  end.

(** What [for item in data] iterates over: the elements of a list, the keys
    of a dictionary, the characters of a string. *)
Fixpoint chars (s : string) : list json :=
  match s with
  | EmptyString => []
  | String c s' => JStr (String c EmptyString) :: chars s'
  end.

Definition iterate (data : json) : outcome (list json) :=
  match data with
  | JArr items => Return items
  | JObj fields => Return (map (fun kv => JStr (fst kv)) fields)
  | JStr s => Return (chars s)
  | _ => Raise TypeError
  end.

(** [load_from_file] (lines 174-191). *)
Definition load_from_file (fs : filesystem) (filename : string)
    : M Inventory unit :=
  fun self =>
    match read_json fs filename with
    | Raise e => (Raise e, self)
    | IllTyped => (IllTyped, self)
    | Return data =>
        (* self._products.clear() *)
        let cleared := dict_empty in
        match iterate data with
        | Raise e => (Raise e, mkInventory cleared)
        | IllTyped => (IllTyped, mkInventory cleared)
        | Return items =>
            let (r, d) := load_items items cleared in
            (r, mkInventory d)
        end
    end.

(** ** The invariant of the store (spec, section 3) *)

(** Every key is the id of the product stored under it. *)
Definition keys_are_ids (self : Inventory) : Prop :=
  Forall (fun kv => fst kv = _product_id (snd kv)) (_products self).

(** No two products of the store have the same id. *)
Definition unique_ids (self : Inventory) : Prop :=
  NoDup (map _product_id (list_all_products self)).

Definition store_invariant (self : Inventory) : Prop :=
  keys_are_ids self /\ unique_ids self.

(** The invariant, on the dictionary itself. *)
Definition dict_inv (d : dict Product) : Prop :=
  dict_wf d /\ Forall (fun kv => fst kv = _product_id (snd kv)) d.

(** The entries a sweep at date [today] keeps. *)
Definition kept (today : date) (kv : string * Product) : bool :=
  negb (expired_grocery today (snd kv)).

(** [a < b] on dates. *)
Definition date_lt (a b : date) : bool := date_gt b a.

(** ** Vocabulary of the statements about loading *)

(** The value [item.get("type")] gives for a dictionary. *)
Definition discriminator (fields : dict json) : json :=
  match dict_get "type" fields with
  | Some v => v
  | None => JNull
  end.

(** An item with an unrecognized discriminator: a dictionary for which
    [product_map.get] gives [None]. *)
Definition unrecognized (item : json) : bool :=
  match item with
  | JObj fields =>
      match product_map_get (discriminator fields) with
      | Return None => true
      | _ => false
      end
  | _ => false
  end.

(** The keys [from_dict] reads, in the order it reads them. *)
Definition required_fields (cls : class) : list string :=
  ["product_id"; "name"; "price"; "quantity"]
  ++ match cls with
     | ElectronicsClass => ["brand"; "warranty_years"]
     | GroceryClass => ["expiry_date"]
     | ClothingClass => ["size"; "material"]
     end.

(** The dictionary that assigning [products] one after the other under
    their ids builds from [d]. *)
Definition assign_all (products : list Product) (d : dict Product)
    : dict Product :=
  fold_left (fun d p => dict_set (_product_id p) p d) products d.

(** The last product of a list with a given id. *)
Definition last_with_id (product_id : string) (products : list Product)
    : option Product :=
  find (fun p => String.eqb product_id (_product_id p)) (rev products).

(** ** Runs of the store *)

(** The calls a client can make on an inventory. *)
Inductive operation : Type :=
| AddProduct (product : Product)
| RemoveProduct (product_id : string)
| SellProduct (product_id : string) (quantity : Z)
| RestockProduct (product_id : string) (quantity : Z)
| RemoveExpiredProducts (today : date)
| LoadFromFile (fs : filesystem) (filename : string).

Definition run (op : operation) : M Inventory unit :=
  match op with
  | AddProduct product => add_product product
  | RemoveProduct product_id => remove_product product_id
  | SellProduct product_id quantity => sell_product product_id quantity
  | RestockProduct product_id quantity => restock_product product_id quantity
  | RemoveExpiredProducts today => remove_expired_products today
  | LoadFromFile fs filename => load_from_file fs filename
  end.

(** The stores a client can reach from [Inventory()], whether the calls
    return or raise. *)
Inductive reachable : Inventory -> Prop :=
| reachable_init : reachable Inventory_init
| reachable_step (op : operation) (self : Inventory) :
    reachable self -> reachable (snd (run op self)).

(** ** Searching (lines 140-144) *)

(** [c.lower()] for one character of ASCII text: the letters [A] to [Z]
    (codes 65 to 90) move to [a] to [z]; every other code is kept. *)
Definition lower_char (c : ascii) : ascii :=
  let code := nat_of_ascii c in
  if (Nat.leb 65 code && Nat.leb code 90)%bool
  then ascii_of_nat (code + 32) else c.

(** [s.lower()] on ASCII text.  On text with characters above code 127
    Python may change those as well; the statements that depend on it
    assume [is_ascii]. *)
Fixpoint lower (s : string) : string :=
  match s with
  | EmptyString => EmptyString
  | String c s' => String (lower_char c) (lower s')
  end.

Fixpoint is_ascii (s : string) : bool :=
  match s with
  | EmptyString => true
  | String c s' => Nat.ltb (nat_of_ascii c) 128 && is_ascii s'
  end.

(** [needle in hay] on strings: [needle] starts at some position of [hay]. *)
Fixpoint contains (needle hay : string) : bool :=
  String.prefix needle hay
  || match hay with
     | EmptyString => false
     | String _ hay' => contains needle hay'
     end.

(** [search_by_name] (lines 140-141). *)
Definition search_by_name (name : string) (self : Inventory) : list Product :=
  filter (fun p => contains (lower name) (lower (_name p)))
         (dict_values (_products self)).

(** [search_by_type] (lines 143-144).  The class names are ASCII text and
    have no [k], so a [product_type] with a character above code 127 matches
    none of them in Python either. *)
Definition search_by_type (product_type : string) (self : Inventory)
    : list Product :=
  filter (fun p => String.eqb (lower (class_name (class_of p)))
                              (lower product_type))
         (dict_values (_products self)).

(** ** Vocabulary of the further statements *)

(** Equality of classes. *)
Definition class_eqb (a b : class) : bool :=
  match a, b with
  | ElectronicsClass, ElectronicsClass
  | GroceryClass, GroceryClass
  | ClothingClass, ClothingClass => true
  | _, _ => false
  end.

(** The products of one class, in the order of the store. *)
Definition products_of_class (c : class) (self : Inventory) : list Product :=
  filter (fun p => class_eqb (class_of p) c) (list_all_products self).

(** No product of the store has a negative stock. *)
Definition stock_nonnegative (self : Inventory) : Prop :=
  Forall (fun p => 0 <= _quantity_in_stock p) (list_all_products self).

(** The zero-padded text [YYYY-MM-DD] of three numbers. *)
Definition padded (y m d : Z) : string :=
  fmt4 y (String "-" (fmt2 m (String "-" (fmt2 d "")))).

(** A number below ten written with one digit. *)
Definition fmt1 (n : Z) (rest : string) : string :=
  String (digit_char n) rest.

(** The ways [strptime] lets a month and a day be written. *)
Definition month_texts (m : Z) : list string :=
  fmt2 m "" :: (if m <? 10 then [fmt1 m ""] else []).
Definition day_texts (d : Z) : list string :=
  fmt2 d "" :: (if d <? 10 then [fmt1 d ""; String " " (fmt1 d "")] else []).

(** ** Sample data *)

Definition d_2020_02_29 : date := mkdate 2020 2 29 eq_refl.
Definition d_2024_06_15 : date := mkdate 2024 6 15 eq_refl.
Definition d_2024_06_16 : date := mkdate 2024 6 16 eq_refl.
Definition d_2030_01_01 : date := mkdate 2030 1 1 eq_refl.

(** [Electronics("E1", "Laptop", 100, 5, "Acme", 2)] *)
Definition laptop : Product :=
  mkProduct "E1" "Laptop" (NInt 100) 5 (Electronics (JStr "Acme") (JInt 2)).
(** [Grocery("G1", "Milk", 1.5, 10, "2024-06-15")], the price written as an
    integer here. *)
Definition milk : Product :=
  mkProduct "G1" "Milk" (NInt 2) 10 (Grocery d_2024_06_15).
Definition rice : Product :=
  mkProduct "G2" "Rice" (NInt 3) 7 (Grocery d_2030_01_01).
Definition shirt : Product :=
  mkProduct "C1" "Shirt" (NInt 20) 4 (Clothing (JStr "M") (JStr "Cotton")).

Definition sample_store : Inventory :=
  mkInventory [("E1", laptop); ("G1", milk); ("G2", rice); ("C1", shirt)].

Definition no_files : filesystem := fun _ => None.

(** A record of a kind the program does not know. *)
Definition furniture : json :=
  JObj [ ("type", JStr "Furniture"); ("product_id", JStr "F1");
         ("name", JStr "Chair"); ("price", JInt 40); ("quantity", JInt 3) ].

(** An [Electronics] record that lacks ["brand"]. *)
Definition electronics_no_brand : json :=
  JObj [ ("type", JStr "Electronics"); ("product_id", JStr "E2");
         ("name", JStr "Phone"); ("price", JInt 300); ("quantity", JInt 1);
         ("warranty_years", JInt 1) ].

(** A [Grocery] record whose expiry date is not a date. *)
Definition grocery_bad_date : json :=
  JObj [ ("type", JStr "Grocery"); ("product_id", JStr "G3");
         ("name", JStr "Eggs"); ("price", JInt 4); ("quantity", JInt 12);
         ("expiry_date", JStr "next week") ].

(** An [Electronics] record whose warranty is a text, not an integer. *)
Definition electronics_text_warranty : json :=
  JObj [ ("type", JStr "Electronics"); ("product_id", JStr "E3");
         ("name", JStr "Radio"); ("price", JInt 25); ("quantity", JInt 2);
         ("brand", JStr "Acme"); ("warranty_years", JStr "two years") ].

(** [Clothing("C2", "Laptop Bag", 30, 6, "L", "Nylon")] *)
Definition laptop_bag : Product :=
  mkProduct "C2" "Laptop Bag" (NInt 30) 6 (Clothing (JStr "L") (JStr "Nylon")).

(** An [Electronics] record with all its fields and a list as id. *)
Definition electronics_list_id : json :=
  JObj [ ("type", JStr "Electronics"); ("product_id", JArr [JInt 1]);
         ("name", JStr "Camera"); ("price", JInt 90); ("quantity", JInt 1);
         ("brand", JStr "Acme"); ("warranty_years", JInt 1) ].

(** A second record with the id of [laptop]. *)
Definition laptop_again : Product :=
  mkProduct "E1" "Laptop Pro" (NInt 150) 1 (Electronics (JStr "Acme") (JInt 3)).

Definition file_with (filename : string) (document : json) : filesystem :=
  write_file filename (JsonFile document) no_files.

(** * Properties *)

(** ** Dictionaries *)

Section DictFacts.
Context {V : Type}.
Implicit Types (d : dict V) (k : string) (v : V).

Lemma dict_contains_In k d : dict_contains k d = true <-> In k (dict_keys d).
Proof.
  unfold dict_contains. induction d as [|[k' v'] d IH]; simpl.
  - split; [discriminate | tauto].
  - destruct (String.eqb_spec k k') as [->|Hne].
    + split; auto.
    + rewrite IH. split; [auto | intros [E|H]; [congruence | exact H]].
Qed.

Lemma dict_contains_false k d :
  dict_contains k d = false <-> ~ In k (dict_keys d).
Proof.
  rewrite <- dict_contains_In.
  destruct (dict_contains k d); intuition congruence.
Qed.

Lemma dict_get_None k d : dict_get k d = None <-> ~ In k (dict_keys d).
Proof.
  rewrite <- dict_contains_false. unfold dict_contains.
  destruct (dict_get k d); split; congruence.
Qed.

Lemma dict_get_In k v d : dict_get k d = Some v -> In (k, v) d.
Proof.
  induction d as [|[k' v'] d IH]; simpl; [discriminate|].
  destruct (String.eqb_spec k k') as [->|Hne].
  - intros [= ->]. now left.
  - auto.
Qed.

Lemma In_dict_get k v d : dict_wf d -> In (k, v) d -> dict_get k d = Some v.
Proof.
  unfold dict_wf. induction d as [|[k' v'] d IH]; simpl; [tauto|].
  intros Hnd [E|Hin]; inversion Hnd as [|? ? Hnotin Hnd']; subst.
  - injection E as -> ->. now rewrite String.eqb_refl.
  - destruct (String.eqb_spec k k') as [->|Hne]; [|auto].
    exfalso. apply Hnotin. change k' with (fst (k', v)). now apply in_map.
Qed.

(** A new key goes to the end. *)
Lemma dict_set_new k v d :
  ~ In k (dict_keys d) -> dict_set k v d = (d ++ [(k, v)])%list.
Proof.
  induction d as [|[k' v'] d IH]; simpl; [reflexivity|].
  intros Hnotin. destruct (String.eqb_spec k k') as [->|Hne].
  - exfalso. auto.
  - f_equal. apply IH. tauto.
Qed.

(** Assignment never changes the keys that were there, nor their order. *)
Lemma dict_set_keys k v d :
  dict_keys (dict_set k v d) =
  if dict_contains k d then dict_keys d else (dict_keys d ++ [k])%list.
Proof.
  unfold dict_contains. induction d as [|[k' v'] d IH]; simpl; [reflexivity|].
  destruct (String.eqb_spec k k') as [->|Hne]; simpl; [reflexivity|].
  rewrite IH. now destruct (dict_get k d).
Qed.

Lemma dict_set_wf k v d : dict_wf d -> dict_wf (dict_set k v d).
Proof.
  unfold dict_wf. intros Hnd. rewrite dict_set_keys.
  destruct (dict_contains k d) eqn:E; [exact Hnd|].
  apply dict_contains_false in E.
  apply NoDup_app; [exact Hnd | repeat constructor; simpl; tauto |].
  intros x Hx [<-|[]]. auto.
Qed.

Lemma dict_get_set_same k v d : dict_get k (dict_set k v d) = Some v.
Proof.
  induction d as [|[k' v'] d IH]; simpl.
  - now rewrite String.eqb_refl.
  - destruct (String.eqb k k') eqn:E; simpl; rewrite E; [reflexivity | exact IH].
Qed.

Lemma dict_get_set_other k k' v d :
  k' <> k -> dict_get k' (dict_set k v d) = dict_get k' d.
Proof.
  intros Hne. apply String.eqb_neq in Hne.
  induction d as [|[k0 v0] d IH]; simpl.
  - now rewrite Hne.
  - destruct (String.eqb k k0) eqn:E; simpl.
    + apply String.eqb_eq in E. subst k0. now rewrite Hne.
    + now rewrite IH.
Qed.

(** Writing back the value a key already has changes nothing. *)
Lemma dict_set_same k v d : dict_get k d = Some v -> dict_set k v d = d.
Proof.
  induction d as [|[k' v'] d IH]; simpl; [discriminate|].
  destruct (String.eqb k k') eqn:E.
  - now intros [= ->].
  - intros H. now rewrite IH.
Qed.

(** Assignment keeps or replaces the value of an entry, never its key. *)
Lemma dict_set_Forall (P : string * V -> Prop) k v d :
  Forall P d -> P (k, v) -> Forall P (dict_set k v d).
Proof.
  intros Hd Hv. induction Hd as [|[k' v'] d Hx Hd IH]; simpl.
  - constructor; auto.
  - destruct (String.eqb k k') eqn:E; constructor; auto.
    apply String.eqb_eq in E. now subst k'.
Qed.

Lemma dict_del_keys_incl k d x :
  In x (dict_keys (dict_del k d)) -> In x (dict_keys d).
Proof.
  induction d as [|[k' v'] d IH]; simpl; [tauto|].
  destruct (String.eqb k k'); simpl; tauto.
Qed.

Lemma dict_del_wf k d : dict_wf d -> dict_wf (dict_del k d).
Proof.
  unfold dict_wf. induction d as [|[k' v'] d IH]; simpl; [auto|].
  intros Hnd. inversion Hnd as [|? ? Hnotin Hnd']; subst.
  destruct (String.eqb k k'); simpl; [exact Hnd'|].
  constructor; [|auto]. intros Hin. apply Hnotin.
  eapply dict_del_keys_incl; eauto.
Qed.

Lemma dict_del_Forall (P : string * V -> Prop) k d :
  Forall P d -> Forall P (dict_del k d).
Proof.
  induction 1 as [|[k' v'] d Hx Hd IH]; simpl; [constructor|].
  destruct (String.eqb k k'); [exact Hd | constructor; auto].
Qed.
End DictFacts.

(** ** Selling and restocking a product *)

(** The scenario of the spec: five laptops, three sold, then ten asked. *)
Example sell_scenario :
  sell 3 laptop = (Return tt, set_quantity 2 laptop) /\
  sell 10 (set_quantity 2 laptop)
    = (Raise InsufficientStockError, set_quantity 2 laptop).
Proof. split; reflexivity. Qed.

Lemma sell_ok (quantity : Z) (self : Product) :
  quantity <= _quantity_in_stock self ->
  sell quantity self
    = (Return tt, set_quantity (_quantity_in_stock self - quantity) self).
Proof.
  intros H. unfold sell.
  destruct (Z.gtb_spec quantity (_quantity_in_stock self)); [lia | reflexivity].
Qed.

Lemma sell_inv (quantity : Z) (self self' : Product) (r : outcome unit) :
  sell quantity self = (r, self') ->
  (r = Raise InsufficientStockError /\ self' = self
   /\ quantity > _quantity_in_stock self)
  \/ (r = Return tt /\ quantity <= _quantity_in_stock self
      /\ self' = set_quantity (_quantity_in_stock self - quantity) self).
Proof.
  unfold sell.
  destruct (Z.gtb_spec quantity (_quantity_in_stock self));
    intros [= <- <-]; [left | right]; repeat split; lia.
Qed.

(** C1.  [sell(quantity)] raises [InsufficientStockError] whenever
    [quantity > stock] and then leaves the product, hence its stock, as it
    was; a [sell] that returns leaves a stock that is not negative, namely
    the old stock less [quantity]. *)
Theorem sell_insufficient_stock (self : Product) (quantity : Z) :
  (quantity > _quantity_in_stock self ->
   sell quantity self = (Raise InsufficientStockError, self))
  /\ (forall r self', sell quantity self = (r, self') -> r <> Return tt ->
      r = Raise InsufficientStockError /\
      _quantity_in_stock self' = _quantity_in_stock self)
  /\ (forall self', sell quantity self = (Return tt, self') ->
      0 <= _quantity_in_stock self' /\
      _quantity_in_stock self' = _quantity_in_stock self - quantity).
Proof.
  split; [|split].
  - intros H. unfold sell.
    destruct (Z.gtb_spec quantity (_quantity_in_stock self)); [reflexivity | lia].
  - intros r self' H Hr.
    destruct (sell_inv _ _ _ _ H) as [(-> & -> & _)|(-> & _)]; [auto | congruence].
  - intros self' H.
    destruct (sell_inv _ _ _ _ H) as [(E & _)|(_ & Hle & ->)]; [discriminate|].
    simpl. lia.
Qed.

Lemma sell_insufficient_stock_witness :
  sell 10 (set_quantity 2 laptop)
    = (Raise InsufficientStockError, set_quantity 2 laptop)
  /\ 0 <= _quantity_in_stock (set_quantity 2 laptop).
Proof.
  split.
  - apply (proj1 (sell_insufficient_stock (set_quantity 2 laptop) 10)).
    simpl. lia.
  - apply (proj2 (proj2 (sell_insufficient_stock laptop 3)) (set_quantity 2 laptop)).
    reflexivity.
Defined.

(** C5.  When [sell(q)] returns, [restock(q)] right after it gives back the
    product as it was before the sale, with its original stock. *)
Theorem sell_then_restock (self self' : Product) (q : Z) :
  sell q self = (Return tt, self') ->
  restock q self' = (Return tt, self) /\
  _quantity_in_stock (snd (restock q self')) = _quantity_in_stock self.
Proof.
  intros H.
  destruct (sell_inv _ _ _ _ H) as [(E & _)|(_ & Hle & ->)]; [discriminate|].
  assert (E : restock q (set_quantity (_quantity_in_stock self - q) self)
              = (Return tt, self)).
  { unfold restock, set_quantity. simpl. destruct self; simpl. do 2 f_equal. lia. }
  now rewrite E.
Qed.

Lemma sell_then_restock_witness :
  restock 3 (set_quantity 2 laptop) = (Return tt, laptop) /\
  _quantity_in_stock (snd (restock 3 (set_quantity 2 laptop))) = 5.
Proof.
  apply (sell_then_restock laptop (set_quantity 2 laptop) 3). reflexivity.
Defined.

(** ** Operations of the store on one id *)

(** C6.  [add_product] with an id the store already holds raises
    [DuplicateProductIDError] and leaves the store as it was; so does a
    second [add_product] with the id of a product just added. *)
Theorem add_duplicate (self : Inventory) (product : Product) :
  (dict_contains (_product_id product) (_products self) = true ->
   add_product product self = (Raise DuplicateProductIDError, self))
  /\ (forall self' again,
      add_product product self = (Return tt, self') ->
      _product_id again = _product_id product ->
      add_product again self' = (Raise DuplicateProductIDError, self')).
Proof.
  unfold add_product. split.
  - intros ->. reflexivity.
  - intros self' again H E.
    destruct (dict_contains _ (_products self)); [discriminate|].
    injection H as <-. simpl. rewrite E.
    unfold dict_contains. now rewrite dict_get_set_same.
Qed.

Lemma add_duplicate_witness :
  add_product (set_quantity 0 laptop) sample_store
    = (Raise DuplicateProductIDError, sample_store)
  /\ add_product shirt (snd (add_product shirt Inventory_init))
    = (Raise DuplicateProductIDError, snd (add_product shirt Inventory_init)).
Proof.
  split.
  - apply (proj1 (add_duplicate sample_store (set_quantity 0 laptop))).
    reflexivity.
  - apply (proj2 (add_duplicate Inventory_init shirt)); reflexivity.
Defined.

(** C7.  On an id the store does not hold, [remove_product], [sell_product]
    and [restock_product] each raise [ProductNotFoundError] and leave the
    store as it was. *)
Theorem absent_id_not_found (self : Inventory) (product_id : string)
    (quantity : Z) :
  dict_contains product_id (_products self) = false ->
  remove_product product_id self = (Raise ProductNotFoundError, self)
  /\ sell_product product_id quantity self = (Raise ProductNotFoundError, self)
  /\ restock_product product_id quantity self
     = (Raise ProductNotFoundError, self).
Proof.
  intros H.
  unfold remove_product, sell_product, restock_product, on_product.
  rewrite H. unfold dict_contains in H.
  destruct (dict_get product_id (_products self)); [discriminate|].
  repeat split.
Qed.

Lemma absent_id_not_found_witness :
  remove_product "X9" sample_store = (Raise ProductNotFoundError, sample_store)
  /\ sell_product "X9" 1 sample_store = (Raise ProductNotFoundError, sample_store)
  /\ restock_product "X9" 1 sample_store
     = (Raise ProductNotFoundError, sample_store).
Proof.
  apply (absent_id_not_found sample_store "X9" 1). reflexivity.
Defined.

(** ** The sweep of expired groceries *)

(** Deleting keys that are all different from the first key of the
    dictionary works on the rest of it. *)
Lemma del_all_skip {V} (ids : list string) (k : string) (v : V) (d : dict V) :
  ~ In k ids ->
  del_all ids ((k, v) :: d)
    = (fst (del_all ids d), (k, v) :: snd (del_all ids d)).
Proof.
  revert d. induction ids as [|pid ids IH]; intros d Hk; [reflexivity|].
  assert (Hne : String.eqb pid k = false).
  { apply String.eqb_neq. intros ->. apply Hk. now left. }
  simpl. unfold bind, delitem, dict_contains. simpl. rewrite Hne.
  destruct (dict_get pid d); simpl; [|reflexivity].
  apply IH. intros H. apply Hk. now right.
Qed.

(** Deleting the keys of the entries that satisfy [f] leaves the entries
    that do not, in their order. *)
Lemma del_all_filter {V} (f : string * V -> bool) (d : dict V) :
  dict_wf d ->
  del_all (map fst (filter f d)) d
    = (Return tt, filter (fun kv => negb (f kv)) d).
Proof.
  unfold dict_wf. induction d as [|[k v] d IH]; intros Hnd; [reflexivity|].
  inversion Hnd as [|? ? Hnotin Hnd']; subst. simpl.
  destruct (f (k, v)); simpl.
  - unfold bind, delitem, dict_contains. simpl. rewrite String.eqb_refl.
    now apply IH.
  - rewrite del_all_skip, IH by
      (try assumption; intros H; apply Hnotin;
       apply in_map_iff in H; destruct H as (kv & <- & Hin);
       apply filter_In in Hin; apply in_map; tauto).
    reflexivity.
Qed.

(** The order of dates is the order of the triples year, month, day. *)
Lemma date_gt_spec (a b : date) :
  date_gt a b = true <->
  year b < year a
  \/ (year a = year b /\ (month b < month a
                          \/ (month a = month b /\ day b < day a))).
Proof.
  unfold date_gt.
  rewrite !orb_true_iff, !andb_true_iff, orb_true_iff, andb_true_iff.
  rewrite !Z.ltb_lt, !Z.eqb_eq. tauto.
Qed.

Lemma unique_ids_wf (self : Inventory) :
  keys_are_ids self -> unique_ids self -> dict_wf (_products self).
Proof.
  unfold keys_are_ids, unique_ids, dict_wf, list_all_products, dict_keys,
    dict_values.
  intros Hk Hu. rewrite map_map in Hu.
  erewrite map_ext_in; [exact Hu|].
  intros kv Hin. rewrite Forall_forall in Hk. auto.
Qed.

Lemma wf_unique_ids (self : Inventory) :
  keys_are_ids self -> dict_wf (_products self) -> unique_ids self.
Proof.
  unfold keys_are_ids, unique_ids, dict_wf, list_all_products, dict_keys,
    dict_values.
  intros Hk Hu. rewrite map_map.
  erewrite map_ext_in; [exact Hu|].
  intros kv Hin. rewrite Forall_forall in Hk. symmetry. auto.
Qed.

(** C8.  In a store that holds each key once, the sweep at date [today]
    returns and keeps, in their order and unchanged, exactly the entries
    that are not a [Grocery] whose expiry date is strictly before [today]:
    an entry is removed if and only if it is such a [Grocery]. *)
Theorem remove_expired_exact (today : date) (self : Inventory) :
  dict_wf (_products self) ->
  remove_expired_products today self
    = (Return tt, mkInventory (filter (kept today) (_products self)))
  /\ (forall k p,
        In (k, p) (_products (snd (remove_expired_products today self))) <->
        In (k, p) (_products self) /\
        ~ (exists expiry_date,
             subclass p = Grocery expiry_date /\
             date_lt expiry_date today = true))
  /\ (forall k p, In (k, p) (_products self) ->
        is_Grocery p = false ->
        In (k, p) (_products (snd (remove_expired_products today self)))).
Proof.
  intros Hwf.
  assert (E : remove_expired_products today self
              = (Return tt, mkInventory (filter (kept today) (_products self)))).
  { unfold remove_expired_products, expired_ids.
    now rewrite (del_all_filter (fun kv => expired_grocery today (snd kv))). }
  rewrite E. simpl. split; [reflexivity|]. split.
  - intros k p. rewrite filter_In. unfold kept, expired_grocery, date_lt,
      is_expired. simpl.
    split; intros [Hin H]; (split; [exact Hin|]).
    + intros (e & He & Hlt). rewrite He in H. rewrite Hlt in H. discriminate.
    + destruct (subclass p) as [| e |]; try reflexivity.
      destruct (date_gt today e) eqn:Hgt; [|reflexivity].
      exfalso. apply H. now exists e.
  - intros k p Hin Hg. apply filter_In. split; [exact Hin|].
    unfold kept, expired_grocery. simpl. unfold is_Grocery in Hg.
    now destruct (subclass p).
Qed.

Lemma remove_expired_exact_witness :
  remove_expired_products d_2024_06_16 sample_store
    = (Return tt, mkInventory [("E1", laptop); ("G2", rice); ("C1", shirt)])
  /\ remove_expired_products d_2024_06_15 sample_store
    = (Return tt, sample_store).
Proof.
  split.
  - refine (proj1 (remove_expired_exact d_2024_06_16 sample_store _)).
    unfold dict_wf. simpl.
    repeat (constructor; [simpl; intuition discriminate|]). constructor.
  - refine (proj1 (remove_expired_exact d_2024_06_15 sample_store _)).
    unfold dict_wf. simpl.
    repeat (constructor; [simpl; intuition discriminate|]). constructor.
Defined.

(** ** The invariant of the store *)

Lemma store_invariant_dict (self : Inventory) :
  store_invariant self <-> dict_inv (_products self).
Proof.
  unfold store_invariant, dict_inv. split; intros [H1 H2].
  - split; [now apply unique_ids_wf | exact H1].
  - split; [exact H2 | now apply wf_unique_ids].
Qed.

Lemma dict_inv_set (p : Product) (d : dict Product) :
  dict_inv d -> dict_inv (dict_set (_product_id p) p d).
Proof.
  intros [Hwf Hk]. split; [now apply dict_set_wf|].
  now apply dict_set_Forall.
Qed.

Lemma dict_inv_del (k : string) (d : dict Product) :
  dict_inv d -> dict_inv (dict_del k d).
Proof.
  intros [Hwf Hk]. split; [now apply dict_del_wf | now apply dict_del_Forall].
Qed.

Lemma dict_inv_del_all (ids : list string) (d : dict Product) :
  dict_inv d -> dict_inv (snd (del_all ids d)).
Proof.
  revert d. induction ids as [|k ids IH]; intros d Hd; [exact Hd|].
  simpl. unfold bind, delitem.
  destruct (dict_contains k d); simpl; [|exact Hd].
  apply IH. now apply dict_inv_del.
Qed.

(** The hashing of line 191 changes nothing for a typed product or for an
    exception raised before it. *)
Lemma hash_product_id_Return (item : json) (o : outcome Product)
    (p : Product) :
  hash_product_id item o = Return p <-> o = Return p.
Proof.
  unfold hash_product_id. destruct o as [q|e|]; try tauto.
  destruct item as [| | | | | |fields]; try (split; discriminate).
  destruct (dict_get "product_id" fields) as [[]|]; split; discriminate.
Qed.

Lemma hash_product_id_typed (item : json) (p : Product) :
  hash_product_id item (Return p) = Return p.
Proof. reflexivity. Qed.

Lemma hash_product_id_raised (item : json) (e : exn) :
  hash_product_id item (Raise e) = Raise e.
Proof. reflexivity. Qed.

Lemma hash_product_id_cases (item : json) (o : outcome Product) :
  hash_product_id item o = o
  \/ (o = IllTyped /\ hash_product_id item o = Raise TypeError).
Proof.
  unfold hash_product_id. destruct o as [q|e|]; auto.
  destruct item as [| | | | | |fields]; auto.
  destruct (dict_get "product_id" fields) as [[]|]; auto.
Qed.

Lemma dict_inv_load_items (items : list json) (d : dict Product) :
  dict_inv d -> dict_inv (snd (load_items items d)).
Proof.
  revert d. induction items as [|item items IH]; intros d Hd; [exact Hd|].
  simpl. unfold bind, lift, get, put.
  destruct (hash_product_id item (load_item item)) as [p| |]; simpl;
    try exact Hd.
  apply IH. now apply dict_inv_set.
Qed.

(** A method that keeps the id of the product keeps the invariant. *)
Lemma dict_inv_on_product {A} (k : string) (method : M Product A)
    (self : Inventory) :
  (forall p, _product_id (snd (method p)) = _product_id p) ->
  dict_inv (_products self) ->
  dict_inv (_products (snd (on_product k method self))).
Proof.
  intros Hid Hd. unfold on_product.
  destruct (dict_get k (_products self)) as [p|] eqn:E; [|exact Hd].
  specialize (Hid p). destruct (method p) as [r p']. simpl in *.
  destruct Hd as [Hwf Hk]. split; [now apply dict_set_wf|].
  apply dict_set_Forall; [exact Hk|]. simpl. rewrite Hid.
  apply dict_get_In in E. rewrite Forall_forall in Hk. exact (Hk _ E).
Qed.

Lemma run_preserves_invariant (op : operation) (self : Inventory) :
  store_invariant self -> store_invariant (snd (run op self)).
Proof.
  intros Hinv. pose proof (proj1 (store_invariant_dict self) Hinv) as Hd.
  apply store_invariant_dict.
  destruct op as [product | product_id | product_id quantity
                 | product_id quantity | today | fs filename]; simpl run.
  - unfold add_product.
    match goal with
    | |- context [dict_contains ?k ?d] => destruct (dict_contains k d)
    end; simpl; [exact Hd | now apply dict_inv_set].
  - unfold remove_product.
    match goal with
    | |- context [dict_contains ?k ?d] => destruct (dict_contains k d)
    end; simpl; [now apply dict_inv_del | exact Hd].
  - apply dict_inv_on_product; [|exact Hd].
    intros p. unfold sell. now destruct (_ >? _).
  - now apply dict_inv_on_product.
  - unfold remove_expired_products.
    pose proof (dict_inv_del_all (expired_ids today (_products self)) _ Hd) as H.
    now destruct (del_all _ _).
  - unfold load_from_file.
    assert (He : dict_inv (@dict_empty Product)) by (split; constructor).
    destruct (read_json fs filename) as [data| |]; simpl; try exact Hd.
    destruct (iterate data) as [items| |]; simpl; try exact He.
    pose proof (dict_inv_load_items items _ He) as H.
    now destruct (load_items _ _).
Qed.

Lemma store_invariant_init : store_invariant Inventory_init.
Proof. split; constructor. Qed.

(** Every store a client can reach satisfies the invariant. *)
Lemma reachable_invariant (self : Inventory) :
  reachable self -> store_invariant self.
Proof.
  induction 1 as [|op self _ IH];
    [exact store_invariant_init | now apply run_preserves_invariant].
Qed.

(** C9.  Every operation of the store, whether it returns or raises, leaves
    a store in which each key is the id of the product stored under it and
    no two products share an id: [add_product], [remove_product],
    [sell_product], [restock_product], [remove_expired_products] and
    [load_from_file]. *)
Theorem operations_preserve_invariant (self : Inventory) :
  store_invariant self ->
  (forall product, store_invariant (snd (add_product product self)))
  /\ (forall product_id, store_invariant (snd (remove_product product_id self)))
  /\ (forall product_id quantity,
        store_invariant (snd (sell_product product_id quantity self)))
  /\ (forall product_id quantity,
        store_invariant (snd (restock_product product_id quantity self)))
  /\ (forall today, store_invariant (snd (remove_expired_products today self)))
  /\ (forall fs filename,
        store_invariant (snd (load_from_file fs filename self))).
Proof.
  intros Hinv.
  refine (conj _ (conj _ (conj _ (conj _ (conj _ _))))); intros.
  - exact (run_preserves_invariant (AddProduct product) self Hinv).
  - exact (run_preserves_invariant (RemoveProduct product_id) self Hinv).
  - exact (run_preserves_invariant (SellProduct product_id quantity) self Hinv).
  - exact (run_preserves_invariant (RestockProduct product_id quantity) self Hinv).
  - exact (run_preserves_invariant (RemoveExpiredProducts today) self Hinv).
  - exact (run_preserves_invariant (LoadFromFile fs filename) self Hinv).
Qed.

(** ** Dates: parsing what [isoformat] prints *)

Example strptime_examples :
  strptime "2024-06-15" = Return d_2024_06_15
  /\ strptime "2020-2-29" = Return d_2020_02_29
  /\ strptime "2023-02-29" = Raise ValueError
  /\ strptime "0000-01-01" = Raise ValueError
  /\ strptime "2024-06-15 " = Raise ValueError
  /\ strptime "15/06/2024" = Raise ValueError
  /\ isoformat d_2020_02_29 = "2020-02-29".
Proof. repeat split. Qed.

Lemma date_eq (a b : date) :
  year a = year b -> month a = month b -> day a = day b -> a = b.
Proof.
  destruct a as [y m d Ha], b as [y' m' d' Hb]. simpl.
  intros -> -> ->. f_equal. apply UIP_dec, bool_dec.
Qed.

Lemma make_date_self (d : date) :
  make_date (year d) (month d) (day d) = Some d.
Proof.
  destruct d as [y m dd H]. simpl. unfold make_date.
  assert (G : forall b (e : valid_ymd y m dd = b),
    match b as b0 return valid_ymd y m dd = b0 -> option date with
    | true => fun H0 => Some (mkdate y m dd H0)
    | false => fun _ => None
    end e = Some (mkdate y m dd H)).
  { intros b e. destruct b; [|congruence].
    f_equal. now apply date_eq. }
  exact (G _ eq_refl).
Qed.

Lemma date_bounds (d : date) :
  1 <= year d <= 9999 /\ 1 <= month d <= 12 /\ 1 <= day d <= 31.
Proof.
  pose proof (date_ok d) as H. unfold valid_ymd in H.
  rewrite !andb_true_iff, !Z.leb_le in H.
  assert (days_in_month (year d) (month d) <= 31).
  { unfold days_in_month.
    repeat match goal with |- context [if ?b then _ else _] => destruct b end;
      lia. }
  lia.
Qed.

(** Case analysis on an integer that the context bounds by small constants:
    one goal for each value in the bounds. *)
Ltac small_cases n :=
  destruct n as [|n|n]; try lia;
  repeat (match goal with
          | q : positive |- _ => destruct q as [q|q|]
          end; try lia).

Lemma digit_val_char (n : Z) : 0 <= n <= 9 -> digit_val (digit_char n) = Some n.
Proof. intros H. small_cases n; reflexivity. Qed.

Section RegexFacts.
Context {R : Type}.

Lemma re_lit_same (c : ascii) (k : string -> option R) (s : string) :
  re_lit c k (String c s) = k s.
Proof. unfold re_lit. now rewrite Ascii.eqb_refl. Qed.

Lemma re_class_char (lo hi n : Z) (k : Z -> string -> option R) (s : string) :
  0 <= n <= 9 -> lo <= n <= hi ->
  re_class lo hi k (String (digit_char n) s) = k n s.
Proof.
  intros H09 Hr. unfold re_class, digit_in. rewrite digit_val_char by exact H09.
  destruct (Z.leb_spec lo n); [|lia]. destruct (Z.leb_spec n hi); [|lia].
  reflexivity.
Qed.

Lemma re_Y_fmt4 (y : Z) (k : Z -> string -> option R) (rest : string) :
  0 <= y <= 9999 -> re_Y k (fmt4 y rest) = k y rest.
Proof.
  intros H. unfold re_Y, fmt4.
  rewrite !re_class_char by (Z.div_mod_to_equations; lia).
  f_equal. Z.div_mod_to_equations. lia.
Qed.

(** January to December, as ["%02d"] prints them. *)
Lemma re_m_fmt2 (m : Z) (k : Z -> string -> option R) (rest : string) (r : R) :
  1 <= m <= 12 -> k m rest = Some r -> re_m k (fmt2 m rest) = Some r.
Proof.
  intros H Hk. small_cases m; cbv; now rewrite Hk.
Qed.

(** The days of a month, as ["%02d"] prints them. *)
Lemma re_d_fmt2 (d : Z) (k : Z -> string -> option R) (rest : string) (r : R) :
  1 <= d <= 31 -> k d rest = Some r -> re_d k (fmt2 d rest) = Some r.
Proof.
  intros H Hk. small_cases d; cbv; now rewrite Hk.
Qed.
End RegexFacts.

Lemma match_format_isoformat (d : date) :
  match_format (isoformat d) = Some (year d, month d, day d, "").
Proof.
  destruct (date_bounds d) as (Hy & Hm & Hd).
  unfold match_format, isoformat.
  rewrite re_Y_fmt4 by lia. rewrite re_lit_same.
  apply re_m_fmt2; [exact Hm|]. rewrite re_lit_same.
  now apply re_d_fmt2.
Qed.

(** Parsing the text [isoformat] prints gives the date back. *)
Lemma strptime_isoformat (d : date) : strptime (isoformat d) = Return d.
Proof.
  unfold strptime. rewrite match_format_isoformat.
  now rewrite make_date_self.
Qed.

(** ** Saving and loading *)

(** [from_dict] undoes [to_dict], for each of the three classes. *)
Lemma from_dict_to_dict (p : Product) :
  from_dict (class_of p) (to_dict p) = Return p.
Proof.
  destruct p as [i n pr q [brand warranty | expiry | size material]];
    unfold from_dict, to_dict, class_of, getitem; cbn [subclass dict_get
      String.eqb Ascii.eqb Bool.eqb obind _product_id _name _price
      _quantity_in_stock];
    unfold Electronics_init, Grocery_init, Clothing_init, Product_init,
      strptime_value; try rewrite strptime_isoformat;
    destruct pr; reflexivity.
Qed.

Lemma load_item_to_dict (p : Product) : load_item (JObj (to_dict p)) = Return p.
Proof.
  unfold load_item.
  assert (E : item_get_type (JObj (to_dict p))
              = Return (JStr (class_name (class_of p)))).
  { destruct p as [i n pr q [brand warranty | expiry | size material]];
      reflexivity. }
  rewrite E. cbn [obind].
  assert (E' : product_map_get (JStr (class_name (class_of p)))
               = Return (Some (class_of p))).
  { destruct p as [i n pr q [brand warranty | expiry | size material]];
      reflexivity. }
  rewrite E'. cbn [obind]. apply from_dict_to_dict.
Qed.

(** Loading the saved entries of a dictionary appends them, in order, to a
    dictionary that has none of their keys. *)
Lemma load_items_saved (d acc : dict Product) :
  Forall (fun kv => fst kv = _product_id (snd kv)) d ->
  dict_wf (acc ++ d)%list ->
  load_items (map (fun p => JObj (to_dict p)) (dict_values d)) acc
    = (Return tt, (acc ++ d)%list).
Proof.
  revert acc. induction d as [|[k p] d IH]; intros acc Hk Hwf; simpl.
  - now rewrite app_nil_r.
  - inversion Hk as [|? ? Hkp Hk']; subst. simpl in Hkp. subst k.
    unfold bind, lift, get, put. rewrite load_item_to_dict.
    cbn [hash_product_id]. rewrite dict_set_new.
    + change (load_items (map (fun p => JObj (to_dict p)) (dict_values d))
                (acc ++ [(_product_id p, p)])%list =
              (Return tt, (acc ++ (_product_id p, p) :: d)%list)).
      rewrite IH; [now rewrite <- app_assoc | exact Hk' |].
      now rewrite <- app_assoc.
    + unfold dict_wf, dict_keys in Hwf. rewrite map_app in Hwf. simpl in Hwf.
      apply NoDup_remove_2 in Hwf. intros Hin. apply Hwf.
      apply in_or_app. now left.
Qed.

(** C2.  For a store that satisfies its invariant, whatever mix of
    [Electronics], [Grocery] and [Clothing] it holds, [save_to_file] followed
    by [load_from_file] of the same file into a fresh store returns and
    yields the original store: the same ids, under each id a product with
    the same class and the same fields, in the same order. *)
Theorem save_load_roundtrip (self : Inventory) (fs : filesystem)
    (filename : string) :
  store_invariant self ->
  load_from_file (save_to_file filename self fs) filename Inventory_init
    = (Return tt, self).
Proof.
  intros Hinv. apply store_invariant_dict in Hinv. destruct Hinv as [Hwf Hk].
  unfold load_from_file, save_to_file, read_json, write_file.
  rewrite String.eqb_refl. cbn [iterate].
  rewrite load_items_saved; [now destruct self | exact Hk | exact Hwf].
Qed.

(** ** Loading a file *)

(** While the items deserialize, the loop assigns their products in order. *)
Lemma load_items_ok (items : list json) (products : list Product)
    (d : dict Product) :
  Forall2 (fun item p => load_item item = Return p) items products ->
  load_items items d = (Return tt, assign_all products d).
Proof.
  intros H. revert d. induction H as [|item p items products Hp _ IH];
    intros d; [reflexivity|].
  simpl. unfold bind, lift, get, put. rewrite Hp. cbn [hash_product_id].
  apply IH.
Qed.

(** The loop stops at the first item that does not deserialize, with the
    products of the items before it in the store. *)
Lemma load_items_stop (before after : list json) (bad : json)
    (products : list Product) (e : exn) (d : dict Product) :
  Forall2 (fun item p => load_item item = Return p) before products ->
  load_item bad = Raise e ->
  load_items (before ++ bad :: after) d = (Raise e, assign_all products d).
Proof.
  intros H Hbad. revert d. induction H as [|item p items products Hp _ IH];
    intros d; simpl; unfold bind, lift, get, put.
  - now rewrite Hbad.
  - rewrite Hp. cbn [hash_product_id]. apply IH.
Qed.

Lemma from_dict_not_invalid (cls : class) (data : dict json) :
  from_dict cls data <> Raise InvalidProductDataError.
Proof.
  unfold from_dict, getitem, Electronics_init, Grocery_init, Clothing_init,
    Product_init, strptime_value, strptime, as_str, as_number, as_int.
  repeat match goal with
         | |- context [match ?x with _ => _ end] => destruct x; simpl
         end; discriminate.
Qed.

Lemma item_get_type_obj (fields : dict json) :
  item_get_type (JObj fields) = Return (discriminator fields).
Proof.
  unfold item_get_type, discriminator. now destruct (dict_get "type" fields).
Qed.

(** [InvalidProductDataError] comes from the discriminator alone. *)
Lemma load_item_invalid (item : json) :
  load_item item = Raise InvalidProductDataError <-> unrecognized item = true.
Proof.
  destruct item as [| | | | |items|fields];
    try (split; discriminate).
  unfold load_item, unrecognized. rewrite item_get_type_obj. cbn [obind].
  destruct (product_map_get (discriminator fields)) as [[c|]| |] eqn:E;
    cbn [obind].
  - split; [|discriminate]. intros H. now apply from_dict_not_invalid in H.
  - tauto.
  - split; [|discriminate]. intros [= ->]. exfalso. revert E.
    unfold product_map_get. destruct (discriminator fields); try discriminate.
    repeat match goal with
           | |- context [if ?b then _ else _] => destruct b
           end; discriminate.
  - split; discriminate.
Qed.

(** The scenario of the spec: a file with a ["Furniture"] record only. *)
Example load_furniture :
  load_from_file (file_with "inventory.json" (JArr [furniture]))
    "inventory.json" sample_store
  = (Raise InvalidProductDataError, Inventory_init).
Proof. reflexivity. Qed.

Lemma assign_all_nil (products : list Product) (d : dict Product) :
  assign_all products d = [] -> products = [] /\ d = [].
Proof.
  revert d. induction products as [|p ps IH]; intros d H; [now split|].
  simpl in H. apply IH in H. destruct H as [_ H].
  destruct d as [|[k v] d]; simpl in H; [discriminate|].
  destruct (String.eqb (_product_id p) k); discriminate.
Qed.

(** C3, as stated, fails: with a good record before the unrecognized one the
    failed load leaves that record's product in the store; with a record
    before it that lacks a field the load fails with [KeyError]; and with a
    record before it whose id is a list the load fails with [TypeError]. *)
Lemma load_unrecognized_counterexample :
  existsb unrecognized [JObj (to_dict laptop); furniture] = true
  /\ load_from_file
       (file_with "inventory.json" (JArr [JObj (to_dict laptop); furniture]))
       "inventory.json" sample_store
     = (Raise InvalidProductDataError, mkInventory [("E1", laptop)])
  /\ mkInventory [("E1", laptop)] <> Inventory_init
  /\ load_from_file
       (file_with "inventory.json" (JArr [electronics_no_brand; furniture]))
       "inventory.json" sample_store
     = (Raise (KeyError "brand"), Inventory_init)
  /\ load_from_file
       (file_with "inventory.json" (JArr [electronics_list_id; furniture]))
       "inventory.json" sample_store
     = (Raise TypeError, Inventory_init).
Proof. repeat split. discriminate. Qed.

(** C3, amended.  When each item before the first item with an unrecognized
    discriminator deserializes into a product with fields of the annotated
    types (id and name a string, price a number, quantity an integer),
    [load_from_file] raises [InvalidProductDataError] and leaves in the store
    exactly the products of those items, assigned in the order of the file
    under their ids: nothing of the store's contents before the load, and an
    empty store if and only if no item comes before the unrecognized one. *)
Theorem load_unrecognized (self : Inventory) (fs : filesystem)
    (filename : string) (before after : list json) (bad : json)
    (products : list Product) :
  read_json fs filename = Return (JArr (before ++ bad :: after)) ->
  Forall2 (fun item p => load_item item = Return p) before products ->
  unrecognized bad = true ->
  load_from_file fs filename self
    = (Raise InvalidProductDataError,
       mkInventory (assign_all products dict_empty))
  /\ (snd (load_from_file fs filename self) = Inventory_init <-> before = []).
Proof.
  intros Hread Hbefore Hbad. apply load_item_invalid in Hbad.
  assert (E : load_from_file fs filename self
              = (Raise InvalidProductDataError,
                 mkInventory (assign_all products dict_empty))).
  { unfold load_from_file. rewrite Hread. cbn [iterate].
    now rewrite (load_items_stop _ _ _ _ _ _ Hbefore Hbad). }
  split; [exact E|]. rewrite E. simpl. split.
  - intros [= H]. apply assign_all_nil in H. destruct H as [-> _].
    now inversion Hbefore.
  - intros ->. now inversion Hbefore.
Qed.

Lemma load_unrecognized_witness :
  load_from_file
    (file_with "inventory.json" (JArr [JObj (to_dict laptop); furniture]))
    "inventory.json" sample_store
  = (Raise InvalidProductDataError, mkInventory [("E1", laptop)]).
Proof.
  refine (proj1 (load_unrecognized sample_store
    (file_with "inventory.json" (JArr [JObj (to_dict laptop); furniture]))
    "inventory.json" [JObj (to_dict laptop)] [] furniture [laptop] _ _ _)).
  - reflexivity.
  - repeat constructor.
  - reflexivity.
Defined.

(** ** What deserialization raises *)

Lemma strptime_cases (s : string) :
  (exists d, strptime s = Return d) \/ strptime s = Raise ValueError.
Proof.
  unfold strptime.
  destruct (match_format s) as [[[[y m] d] [|c rest]]|]; auto.
  destruct (make_date y m d); eauto.
Qed.

(** C4, as stated, fails: a record that lacks a field raises [KeyError], a
    [Grocery] record with an unparseable expiry date raises [ValueError],
    and a record whose warranty is a text deserializes. *)
Lemma deserialize_counterexample :
  load_item electronics_no_brand = Raise (KeyError "brand")
  /\ load_item grocery_bad_date = Raise ValueError
  /\ load_item electronics_text_warranty
     = Return (mkProduct "E3" "Radio" (NInt 25) 2
                 (Electronics (JStr "Acme") (JStr "two years")))
  /\ load_item electronics_no_brand <> Raise InvalidProductDataError
  /\ load_item grocery_bad_date <> Raise InvalidProductDataError
  /\ load_item electronics_text_warranty <> Raise InvalidProductDataError.
Proof. repeat split; discriminate. Qed.

(** The record has every key of [before] and lacks [key]. *)
Ltac first_missing before key :=
  exists before, key; eexists;
  split; [reflexivity|];
  split; [repeat constructor; congruence|];
  split; [assumption | reflexivity].

Lemma from_dict_missing (cls : class) (data : dict json) (key : string) :
  In key (required_fields cls) -> dict_get key data = None ->
  exists before key' after,
    required_fields cls = (before ++ key' :: after)%list
    /\ Forall (fun k => dict_get k data <> None) before
    /\ dict_get key' data = None
    /\ from_dict cls data = Raise (KeyError key').
Proof.
  intros Hin Hkey. unfold from_dict, getitem.
  destruct (dict_get "product_id" data) eqn:E1;
    [|destruct cls; first_missing (@nil string) "product_id"].
  destruct (dict_get "name" data) eqn:E2;
    [|destruct cls; first_missing ["product_id"] "name"].
  destruct (dict_get "price" data) eqn:E3;
    [|destruct cls; first_missing ["product_id"; "name"] "price"].
  destruct (dict_get "quantity" data) eqn:E4;
    [|destruct cls; first_missing ["product_id"; "name"; "price"] "quantity"].
  cbn [obind]. destruct cls; cbn [required_fields app] in *.
  - destruct (dict_get "brand" data) eqn:E5;
      [|first_missing ["product_id"; "name"; "price"; "quantity"] "brand"].
    destruct (dict_get "warranty_years" data) eqn:E6;
      [|first_missing ["product_id"; "name"; "price"; "quantity"; "brand"]
          "warranty_years"].
    exfalso. simpl in Hin. intuition (subst; congruence).
  - destruct (dict_get "expiry_date" data) eqn:E5;
      [|first_missing ["product_id"; "name"; "price"; "quantity"]
          "expiry_date"].
    exfalso. simpl in Hin. intuition (subst; congruence).
  - destruct (dict_get "size" data) eqn:E5;
      [|first_missing ["product_id"; "name"; "price"; "quantity"] "size"].
    destruct (dict_get "material" data) eqn:E6;
      [|first_missing ["product_id"; "name"; "price"; "quantity"; "size"]
          "material"].
    exfalso. simpl in Hin. intuition (subst; congruence).
Qed.

Lemma from_dict_bad_date (data : dict json) (s : string) :
  (forall key, In key (required_fields GroceryClass) ->
               dict_get key data <> None) ->
  dict_get "expiry_date" data = Some (JStr s) ->
  (forall d, strptime s <> Return d) ->
  from_dict GroceryClass data = Raise ValueError.
Proof.
  intros Hall Hdate Hbad. unfold from_dict, getitem.
  destruct (dict_get "product_id" data) eqn:E1;
    [|exfalso; apply (Hall "product_id"); simpl; auto].
  destruct (dict_get "name" data) eqn:E2;
    [|exfalso; apply (Hall "name"); simpl; auto].
  destruct (dict_get "price" data) eqn:E3;
    [|exfalso; apply (Hall "price"); simpl; auto].
  destruct (dict_get "quantity" data) eqn:E4;
    [|exfalso; apply (Hall "quantity"); simpl; auto 6].
  rewrite Hdate. cbn [obind]. unfold Grocery_init, strptime_value.
  destruct (strptime_cases s) as [[d Hd]| ->]; [|reflexivity].
  now apply Hbad in Hd.
Qed.

(** C4, amended.  Deserialization raises [InvalidProductDataError] exactly
    for an item with an unrecognized discriminator, and [from_dict] never
    raises it: a record that lacks a field [from_dict] reads raises
    [KeyError] for the first such field in the order [from_dict] reads them,
    and a [Grocery] record that has all
    its fields and an expiry date text that does not parse raises
    [ValueError]. *)
Theorem deserialize_errors :
  (forall item,
     load_item item = Raise InvalidProductDataError <->
     unrecognized item = true)
  /\ (forall cls data, from_dict cls data <> Raise InvalidProductDataError)
  /\ (forall cls data key,
        In key (required_fields cls) -> dict_get key data = None ->
        exists before key' after,
          required_fields cls = (before ++ key' :: after)%list
          /\ Forall (fun k => dict_get k data <> None) before
          /\ dict_get key' data = None
          /\ from_dict cls data = Raise (KeyError key'))
  /\ (forall data s,
        (forall key, In key (required_fields GroceryClass) ->
                     dict_get key data <> None) ->
        dict_get "expiry_date" data = Some (JStr s) ->
        (forall d, strptime s <> Return d) ->
        from_dict GroceryClass data = Raise ValueError).
Proof.
  split; [exact load_item_invalid|].
  split; [exact from_dict_not_invalid|].
  split; [exact from_dict_missing | exact from_dict_bad_date].
Qed.

Lemma deserialize_errors_witness :
  (exists before key' after,
     required_fields ElectronicsClass = (before ++ key' :: after)%list
     /\ Forall (fun k => dict_get k
                   [("product_id", JStr "E2"); ("name", JStr "Phone")] <> None)
          before
     /\ dict_get key' [("product_id", JStr "E2"); ("name", JStr "Phone")] = None
     /\ from_dict ElectronicsClass
          [("product_id", JStr "E2"); ("name", JStr "Phone")]
        = Raise (KeyError key'))
  /\ from_dict GroceryClass
       [ ("product_id", JStr "G3"); ("name", JStr "Eggs"); ("price", JInt 4);
         ("quantity", JInt 12); ("expiry_date", JStr "next week") ]
     = Raise ValueError.
Proof.
  split.
  - apply (proj1 (proj2 (proj2 deserialize_errors)) ElectronicsClass
             [("product_id", JStr "E2"); ("name", JStr "Phone")] "brand").
    + simpl. auto 6.
    + reflexivity.
  - apply (proj2 (proj2 (proj2 deserialize_errors)) _ "next week").
    + intros key Hin. simpl in Hin.
      repeat (destruct Hin as [<-|Hin]; [discriminate|]). destruct Hin.
    + reflexivity.
    + intros d H. vm_compute in H. discriminate.
Defined.

(** ** Records that share an id *)

Lemma dict_set_length {V} (k : string) (v : V) (d : dict V) :
  List.length (dict_set k v d)
  = if dict_contains k d then List.length d else S (List.length d).
Proof.
  unfold dict_contains. induction d as [|[k' v'] d IH]; simpl; [reflexivity|].
  destruct (String.eqb k k'); simpl; [reflexivity|].
  rewrite IH. now destruct (dict_get k d).
Qed.

Lemma dict_set_keeps_keys {V} (k k' : string) (v : V) (d : dict V) :
  dict_contains k' d = true -> dict_contains k' (dict_set k v d) = true.
Proof.
  rewrite !dict_contains_In, dict_set_keys.
  destruct (dict_contains k d); [auto|]. intros H. apply in_or_app. now left.
Qed.

Lemma assign_all_app (ps qs : list Product) (d : dict Product) :
  assign_all (ps ++ qs) d = assign_all qs (assign_all ps d).
Proof. apply fold_left_app. Qed.

Lemma assign_all_length (ps : list Product) (d : dict Product) :
  (List.length (assign_all ps d) <= List.length d + List.length ps)%nat.
Proof.
  revert d. induction ps as [|p ps IH]; intros d; simpl; [lia|].
  specialize (IH (dict_set (_product_id p) p d)).
  rewrite dict_set_length in IH.
  destruct (dict_contains (_product_id p) d); simpl in IH; unfold assign_all in *; lia.
Qed.

Lemma assign_all_keeps_keys (ps : list Product) (k : string)
    (d : dict Product) :
  dict_contains k d = true -> dict_contains k (assign_all ps d) = true.
Proof.
  revert d. induction ps as [|p ps IH]; intros d H; [exact H|].
  simpl. apply IH. now apply dict_set_keeps_keys.
Qed.

Lemma find_append {A} (f : A -> bool) (l l' : list A) :
  find f (l ++ l')
  = match find f l with Some x => Some x | None => find f l' end.
Proof.
  induction l as [|a l IH]; simpl; [reflexivity|]. now destruct (f a).
Qed.

(** Under each id the store holds the last product assigned under it. *)
Lemma assign_all_get (ps : list Product) (k : string) (d : dict Product) :
  dict_get k (assign_all ps d)
  = match last_with_id k ps with
    | Some p => Some p
    | None => dict_get k d
    end.
Proof.
  unfold last_with_id. revert d. induction ps as [|p ps IH]; intros d;
    [reflexivity|].
  simpl assign_all. change (fold_left _ ps ?x) with (assign_all ps x).
  rewrite IH. simpl rev. rewrite find_append.
  destruct (find _ (rev ps)); [reflexivity|]. simpl.
  destruct (String.eqb_spec k (_product_id p)) as [->|Hne].
  - apply dict_get_set_same.
  - now apply dict_get_set_other.
Qed.

Lemma last_with_id_None (k : string) (ps : list Product) :
  ~ In k (map _product_id ps) -> last_with_id k ps = None.
Proof.
  intros Hnotin. unfold last_with_id.
  destruct (find _ (rev ps)) as [p|] eqn:E; [|reflexivity].
  apply find_some in E. destruct E as [Hin Heq].
  apply String.eqb_eq in Heq. apply in_rev in Hin.
  exfalso. apply Hnotin. subst k. now apply in_map.
Qed.

Lemma assign_all_shared_id (ps1 ps2 ps3 : list Product) (first later : Product) :
  _product_id first = _product_id later ->
  (List.length (assign_all (ps1 ++ first :: ps2 ++ later :: ps3) dict_empty)
   < List.length (ps1 ++ first :: ps2 ++ later :: ps3))%nat.
Proof.
  intros Hid.
  replace (ps1 ++ first :: ps2 ++ later :: ps3)%list
    with ((ps1 ++ first :: ps2) ++ [later] ++ ps3)%list
    by (rewrite <- !app_assoc; reflexivity).
  rewrite (assign_all_app (ps1 ++ first :: ps2)).
  rewrite (assign_all_app [later] ps3).
  set (d := assign_all (ps1 ++ first :: ps2) dict_empty).
  assert (Hin : dict_contains (_product_id later) d = true).
  { unfold d. rewrite assign_all_app. simpl.
    change (fold_left _ ps2 ?x) with (assign_all ps2 x).
    apply assign_all_keeps_keys. rewrite Hid.
    unfold dict_contains. now rewrite dict_get_set_same. }
  pose proof (assign_all_length (ps1 ++ first :: ps2) dict_empty) as H1.
  fold d in H1. simpl in H1.
  pose proof (assign_all_length ps3 (assign_all [later] d)) as H3.
  assert (H2 : List.length (assign_all [later] d) = List.length d).
  { simpl. rewrite dict_set_length. now rewrite Hin. }
  rewrite (length_app (ps1 ++ first :: ps2)), (length_app [later]).
  change (List.length [later]) with 1%nat. clearbody d. lia.
Qed.

Lemma load_item_no_duplicate_error (item : json) :
  load_item item <> Raise DuplicateProductIDError.
Proof.
  destruct item as [| | | | |items|fields]; try discriminate.
  unfold load_item. rewrite item_get_type_obj. cbn [obind].
  destruct (product_map_get (discriminator fields)) as [[c|]| |] eqn:E;
    cbn [obind]; try discriminate.
  - unfold from_dict, getitem, Electronics_init, Grocery_init, Clothing_init,
      Product_init, strptime_value, strptime, as_str, as_number, as_int.
    repeat match goal with
           | |- context [match ?x with _ => _ end] => destruct x; simpl
           end; discriminate.
  - intros [= ->]. revert E.
    unfold product_map_get. destruct (discriminator fields); try discriminate.
    repeat match goal with
           | |- context [if ?b then _ else _] => destruct b
           end; discriminate.
Qed.

Lemma load_items_no_duplicate_error (items : list json) (d : dict Product) :
  fst (load_items items d) <> Raise DuplicateProductIDError.
Proof.
  revert d. induction items as [|item items IH]; intros d; [discriminate|].
  simpl. unfold bind, lift, get, put.
  pose proof (load_item_no_duplicate_error item) as H.
  destruct (hash_product_id_cases item (load_item item)) as [->|[_ ->]];
    [|discriminate].
  destruct (load_item item) as [p|e|]; simpl; [apply IH | congruence | discriminate].
Qed.

(** C10, as stated, fails: two records share an id and have recognized
    discriminators, yet the load does not return, because a third record is
    of an unknown kind, or because the id they share is a list, which line
    191 cannot hash. *)
Lemma load_shared_id_counterexample :
  load_item (JObj (to_dict laptop)) = Return laptop
  /\ load_item (JObj (to_dict laptop_again)) = Return laptop_again
  /\ _product_id laptop = _product_id laptop_again
  /\ load_from_file
       (file_with "inventory.json"
          (JArr [JObj (to_dict laptop); JObj (to_dict laptop_again);
                 furniture]))
       "inventory.json" Inventory_init
     = (Raise InvalidProductDataError, mkInventory [("E1", laptop_again)])
  /\ unrecognized electronics_list_id = false
  /\ load_from_file
       (file_with "inventory.json"
          (JArr [electronics_list_id; electronics_list_id]))
       "inventory.json" Inventory_init
     = (Raise TypeError, Inventory_init).
Proof. repeat split. Qed.

(** C10, amended.  [load_from_file] raises [DuplicateProductIDError] for no
    file.  When every record of the file deserializes into a product with
    fields of the annotated types (id and name a string, price a number,
    quantity an integer) it returns, and the store holds under each id the
    product of the last record with that id; so when two records share an id
    the store has fewer products than the file has records, and the later of
    the two is the one stored unless a record after it has the id again. *)
Theorem load_shared_id :
  (forall fs filename self,
     fst (load_from_file fs filename self) <> Raise DuplicateProductIDError)
  /\ (forall self fs filename items products,
        read_json fs filename = Return (JArr items) ->
        Forall2 (fun item p => load_item item = Return p) items products ->
        load_from_file fs filename self
          = (Return tt, mkInventory (assign_all products dict_empty))
        /\ (forall product_id,
              dict_get product_id (assign_all products dict_empty)
              = last_with_id product_id products)
        /\ (List.length (assign_all products dict_empty)
            <= List.length items)%nat
        /\ (forall ps1 first ps2 later ps3,
              products = (ps1 ++ first :: ps2 ++ later :: ps3)%list ->
              _product_id first = _product_id later ->
              (List.length (assign_all products dict_empty)
               < List.length items)%nat
              /\ (~ In (_product_id later) (map _product_id ps3) ->
                  dict_get (_product_id later)
                    (assign_all products dict_empty) = Some later))).
Proof.
  split.
  - intros fs filename self. unfold load_from_file.
    destruct (read_json fs filename) as [data|e|] eqn:E; simpl.
    + destruct (iterate data) as [items|e|] eqn:E'; simpl.
      * pose proof (load_items_no_duplicate_error items dict_empty) as H.
        now destruct (load_items items dict_empty).
      * destruct data; simpl in E'; congruence.
      * discriminate.
    + unfold read_json in E. destruct (fs filename) as [[]|]; congruence.
    + discriminate.
  - intros self fs filename items products Hread Hok.
    pose proof (Forall2_length Hok) as Hlen.
    split; [|split; [|split]].
    + unfold load_from_file. rewrite Hread. cbn [iterate].
      now rewrite (load_items_ok _ _ _ Hok).
    + intros k. rewrite assign_all_get. simpl.
      now destruct (last_with_id k products).
    + rewrite Hlen. apply (assign_all_length products dict_empty).
    + intros ps1 first ps2 later ps3 -> Hid. split.
      * rewrite Hlen. now apply assign_all_shared_id.
      * intros Hlast.
        replace (ps1 ++ first :: ps2 ++ later :: ps3)%list
          with ((ps1 ++ first :: ps2) ++ [later] ++ ps3)%list
          by (rewrite <- !app_assoc; reflexivity).
        rewrite !assign_all_app, assign_all_get.
        rewrite last_with_id_None by exact Hlast.
        simpl. apply dict_get_set_same.
Qed.

Lemma load_shared_id_witness :
  load_from_file
    (file_with "inventory.json"
       (JArr [JObj (to_dict laptop); JObj (to_dict shirt);
              JObj (to_dict laptop_again)]))
    "inventory.json" Inventory_init
  = (Return tt, mkInventory [("E1", laptop_again); ("C1", shirt)])
  /\ (List.length [("E1", laptop_again); ("C1", shirt)] < 3)%nat.
Proof.
  pose proof (proj2 load_shared_id Inventory_init
    (file_with "inventory.json"
       (JArr [JObj (to_dict laptop); JObj (to_dict shirt);
              JObj (to_dict laptop_again)]))
    "inventory.json"
    [JObj (to_dict laptop); JObj (to_dict shirt); JObj (to_dict laptop_again)]
    [laptop; shirt; laptop_again] eq_refl) as H.
  destruct H as (Hload & _ & _ & Hdup).
  - repeat constructor.
  - split; [exact Hload|].
    exact (proj1 (Hdup [] laptop [shirt] laptop_again [] eq_refl eq_refl)).
Defined.

Lemma save_load_roundtrip_witness :
  load_from_file (save_to_file "inventory.json" sample_store no_files)
    "inventory.json" Inventory_init
  = (Return tt, sample_store).
Proof.
  apply (save_load_roundtrip sample_store no_files "inventory.json").
  split.
  - repeat constructor.
  - unfold unique_ids. simpl.
    repeat (constructor; [simpl; intuition discriminate|]). constructor.
Defined.

Lemma operations_preserve_invariant_witness :
  store_invariant (snd (add_product laptop_again sample_store))
  /\ store_invariant (snd (sell_product "G1" 4 sample_store))
  /\ store_invariant (snd (remove_expired_products d_2024_06_16 sample_store)).
Proof.
  assert (H : store_invariant sample_store).
  { split.
    - repeat constructor.
    - unfold unique_ids. simpl.
      repeat (constructor; [simpl; intuition discriminate|]). constructor. }
  destruct (operations_preserve_invariant sample_store H)
    as (Hadd & _ & Hsell & _ & Hsweep & _).
  exact (conj (Hadd laptop_again) (conj (Hsell "G1" 4) (Hsweep d_2024_06_16))).
Defined.


(** * Further properties of the code *)

(** ** Searching *)

(** The scenario of the spec: ["top"] finds the laptop and the laptop bag,
    whatever the case of the query. *)
Example search_top :
  search_by_name "top" (mkInventory [("C2", laptop_bag); ("G1", milk);
                                     ("E1", laptop)])
    = [laptop_bag; laptop]
  /\ search_by_name "TOP" sample_store = [laptop]
  /\ search_by_type "GROCERY" sample_store = [milk; rice]
  /\ search_by_type "Furniture" sample_store = [].
Proof. repeat split. Qed.

(** ** More on dictionaries *)

Section DictMore.
Context {V : Type}.
Implicit Types (d : dict V) (k : string) (v : V).

(** A second assignment under a key overwrites the first. *)
Lemma dict_set_twice k v v' d :
  dict_set k v (dict_set k v' d) = dict_set k v d.
Proof.
  induction d as [|[k0 v0] d IH]; simpl.
  - now rewrite String.eqb_refl.
  - destruct (String.eqb k k0) eqn:E; simpl; rewrite E; [reflexivity|].
    now rewrite IH.
Qed.

Lemma dict_set_keys_present k v d :
  dict_contains k d = true -> dict_keys (dict_set k v d) = dict_keys d.
Proof. intros H. now rewrite dict_set_keys, H. Qed.

(** Deleting a key that was just added gives the dictionary back. *)
Lemma dict_del_set_new k v d :
  ~ In k (dict_keys d) -> dict_del k (dict_set k v d) = d.
Proof.
  induction d as [|[k0 v0] d IH]; simpl; intros H.
  - now rewrite String.eqb_refl.
  - destruct (String.eqb k k0) eqn:E.
    + apply String.eqb_eq in E. exfalso. auto.
    + simpl. rewrite E. f_equal. apply IH. tauto.
Qed.

Lemma dict_get_del_other k k' d :
  k' <> k -> dict_get k' (dict_del k d) = dict_get k' d.
Proof.
  intros Hne. induction d as [|[k0 v0] d IH]; simpl; [reflexivity|].
  destruct (String.eqb k k0) eqn:E; simpl.
  - apply String.eqb_eq in E. subst k0.
    now rewrite (proj2 (String.eqb_neq k' k) Hne).
  - now rewrite IH.
Qed.

Lemma dict_get_del_same k d : dict_wf d -> dict_get k (dict_del k d) = None.
Proof.
  unfold dict_wf. induction d as [|[k0 v0] d IH]; simpl; [reflexivity|].
  intros Hnd. inversion Hnd as [|? ? Hnotin Hnd']; subst.
  destruct (String.eqb k k0) eqn:E; simpl.
  - apply String.eqb_eq in E. subst k0. now apply dict_get_None.
  - rewrite E. now apply IH.
Qed.

Lemma dict_del_length k d :
  dict_contains k d = true -> S (List.length (dict_del k d)) = List.length d.
Proof.
  unfold dict_contains. induction d as [|[k0 v0] d IH]; simpl; [discriminate|].
  destruct (String.eqb k k0); simpl; [reflexivity|].
  intros H. now rewrite IH.
Qed.

(** Deleting a key removes its entry and keeps the others in their order. *)
Lemma dict_del_filter k d :
  dict_wf d ->
  dict_del k d = filter (fun kv => negb (String.eqb k (fst kv))) d.
Proof.
  unfold dict_wf. induction d as [|[k0 v0] d IH]; simpl; [reflexivity|].
  intros Hnd. inversion Hnd as [|? ? Hnotin Hnd']; subst.
  destruct (String.eqb k k0) eqn:E; simpl.
  - apply String.eqb_eq in E. subst k0. symmetry.
    apply forallb_filter_id. apply forallb_forall. intros [k1 v1] Hin. simpl.
    destruct (String.eqb_spec k k1) as [<-|]; [|reflexivity].
    exfalso. apply Hnotin. change k with (fst (k, v1)). now apply in_map.
  - now rewrite IH.
Qed.
End DictMore.

(** ** Selling and restocking through the store *)

Lemma sell_fail (quantity : Z) (self : Product) :
  quantity > _quantity_in_stock self ->
  sell quantity self = (Raise InsufficientStockError, self).
Proof.
  intros H. unfold sell.
  destruct (Z.gtb_spec quantity (_quantity_in_stock self)); [reflexivity | lia].
Qed.

(** X1.  [sell_product] for more than the stock of a product the store holds
    raises [InsufficientStockError] and leaves the whole store as it was. *)
Theorem sell_product_insufficient (self : Inventory) (product_id : string)
    (quantity : Z) (p : Product) :
  dict_get product_id (_products self) = Some p ->
  quantity > _quantity_in_stock p ->
  sell_product product_id quantity self = (Raise InsufficientStockError, self).
Proof.
  intros Hget Hq. unfold sell_product, on_product. rewrite Hget.
  rewrite (sell_fail quantity p Hq).
  rewrite dict_set_same by exact Hget. now destruct self.
Qed.

Lemma sell_product_insufficient_witness :
  sell_product "E1" 6 sample_store = (Raise InsufficientStockError, sample_store).
Proof.
  apply (sell_product_insufficient sample_store "E1" 6 laptop);
    [reflexivity | simpl; lia].
Defined.

(** The store after a method has changed the product under [product_id]:
    that product is replaced where it stands, nothing else moves. *)
Lemma on_product_present {A} (product_id : string) (method : M Product A)
    (self : Inventory) (p : Product) :
  dict_get product_id (_products self) = Some p ->
  on_product product_id method self
    = (fst (method p),
       mkInventory (dict_set product_id (snd (method p)) (_products self))).
Proof.
  intros Hget. unfold on_product. rewrite Hget. now destruct (method p).
Qed.

(** X2.  [sell_product] for at most the stock of a product the store holds
    returns; afterwards the id gives the same product with the stock less
    the quantity, every other id gives what it gave, and the ids and their
    order are unchanged. *)
Theorem sell_product_ok (self : Inventory) (product_id : string)
    (quantity : Z) (p : Product) :
  dict_get product_id (_products self) = Some p ->
  quantity <= _quantity_in_stock p ->
  exists self',
    sell_product product_id quantity self = (Return tt, self')
    /\ dict_get product_id (_products self')
       = Some (set_quantity (_quantity_in_stock p - quantity) p)
    /\ (forall other, other <> product_id ->
          dict_get other (_products self') = dict_get other (_products self))
    /\ dict_keys (_products self') = dict_keys (_products self).
Proof.
  intros Hget Hq. unfold sell_product.
  rewrite (on_product_present _ _ _ _ Hget), (sell_ok quantity p Hq). simpl.
  eexists. split; [reflexivity|]. simpl. split; [apply dict_get_set_same|].
  split.
  - intros other Hne. now apply dict_get_set_other.
  - apply dict_set_keys_present. unfold dict_contains. now rewrite Hget.
Qed.

Lemma sell_product_ok_witness :
  exists self',
    sell_product "E1" 3 sample_store = (Return tt, self')
    /\ dict_get "E1" (_products self') = Some (set_quantity 2 laptop)
    /\ (forall other, other <> "E1" ->
          dict_get other (_products self')
          = dict_get other (_products sample_store))
    /\ dict_keys (_products self') = ["E1"; "G1"; "G2"; "C1"].
Proof.
  apply (sell_product_ok sample_store "E1" 3 laptop); [reflexivity | simpl; lia].
Defined.

(** X3.  When [sell_product] returns, [restock_product] of the same id and
    quantity right after it returns too and gives back the store as it was
    before the sale. *)
Theorem sell_then_restock_product (self self' : Inventory)
    (product_id : string) (quantity : Z) :
  sell_product product_id quantity self = (Return tt, self') ->
  restock_product product_id quantity self' = (Return tt, self).
Proof.
  unfold sell_product, restock_product. intros H.
  destruct (dict_get product_id (_products self)) as [p|] eqn:Hget;
    [|unfold on_product in H; rewrite Hget in H; discriminate].
  rewrite (on_product_present _ _ _ _ Hget) in H.
  destruct (sell quantity p) as [r p'] eqn:Hsell. simpl in H.
  injection H as -> <-.
  destruct (sell_inv _ _ _ _ Hsell) as [(E & _)|(_ & Hle & ->)]; [discriminate|].
  erewrite on_product_present by (simpl; apply dict_get_set_same).
  unfold restock. simpl. rewrite dict_set_twice.
  replace (set_quantity _ (set_quantity _ p)) with p
    by (destruct p; unfold set_quantity; simpl; f_equal; lia).
  rewrite dict_set_same by exact Hget. now destruct self.
Qed.

Lemma sell_then_restock_product_witness :
  restock_product "G1" 4 (snd (sell_product "G1" 4 sample_store))
    = (Return tt, sample_store).
Proof.
  apply (sell_then_restock_product sample_store _ "G1" 4). reflexivity.
Defined.

(** X4.  [restock_product] on a product the store holds returns for every
    integer amount and adds it to the stock; there is no lower bound, so an
    amount below minus the stock leaves a negative stock. *)
Theorem restock_product_any_amount (self : Inventory) (product_id : string)
    (amount : Z) (p : Product) :
  dict_get product_id (_products self) = Some p ->
  exists self',
    restock_product product_id amount self = (Return tt, self')
    /\ dict_get product_id (_products self')
       = Some (set_quantity (_quantity_in_stock p + amount) p)
    /\ (forall other, other <> product_id ->
          dict_get other (_products self') = dict_get other (_products self))
    /\ (amount < - _quantity_in_stock p ->
        forall p', dict_get product_id (_products self') = Some p' ->
                   _quantity_in_stock p' < 0).
Proof.
  intros Hget. unfold restock_product.
  rewrite (on_product_present _ _ _ _ Hget). unfold restock. simpl.
  eexists. split; [reflexivity|]. simpl.
  split; [apply dict_get_set_same|]. split.
  - intros other Hne. now apply dict_get_set_other.
  - intros Hneg p'. rewrite dict_get_set_same. intros [= <-]. simpl. lia.
Qed.

Lemma restock_product_any_amount_witness :
  exists self',
    restock_product "C1" (-9) sample_store = (Return tt, self')
    /\ dict_get "C1" (_products self') = Some (set_quantity (-5) shirt)
    /\ (forall other, other <> "C1" ->
          dict_get other (_products self')
          = dict_get other (_products sample_store))
    /\ (-9 < - 4 ->
        forall p', dict_get "C1" (_products self') = Some p' ->
                   _quantity_in_stock p' < 0).
Proof.
  apply (restock_product_any_amount sample_store "C1" (-9) shirt). reflexivity.
Defined.

(** ** Adding and removing *)

(** X5.  [add_product] of a product whose id the store does not hold returns
    and puts the product last: the listing is the old listing followed by
    the product, the id now gives the product, and every other id gives what
    it gave. *)
Theorem add_product_appends (self : Inventory) (product : Product) :
  dict_contains (_product_id product) (_products self) = false ->
  exists self',
    add_product product self = (Return tt, self')
    /\ list_all_products self' = (list_all_products self ++ [product])%list
    /\ dict_get (_product_id product) (_products self') = Some product
    /\ (forall other, other <> _product_id product ->
          dict_get other (_products self') = dict_get other (_products self)).
Proof.
  intros Hnew. unfold add_product. rewrite Hnew. eexists.
  split; [reflexivity|]. simpl. split; [|split].
  - unfold list_all_products, dict_values. simpl.
    rewrite dict_set_new by (now apply dict_contains_false).
    now rewrite map_app.
  - apply dict_get_set_same.
  - intros other Hne. now apply dict_get_set_other.
Qed.

Lemma add_product_appends_witness :
  exists self',
    add_product laptop_bag sample_store = (Return tt, self')
    /\ list_all_products self' = [laptop; milk; rice; shirt; laptop_bag]
    /\ dict_get "C2" (_products self') = Some laptop_bag
    /\ (forall other, other <> "C2" ->
          dict_get other (_products self')
          = dict_get other (_products sample_store)).
Proof.
  apply (add_product_appends sample_store laptop_bag). reflexivity.
Defined.

(** X6.  [add_product] of a product with a new id followed by
    [remove_product] of that id gives back the store as it was. *)
Theorem add_then_remove (self : Inventory) (product : Product) :
  dict_contains (_product_id product) (_products self) = false ->
  exists self',
    add_product product self = (Return tt, self')
    /\ remove_product (_product_id product) self' = (Return tt, self).
Proof.
  intros Hnew. unfold add_product. rewrite Hnew. eexists.
  split; [reflexivity|]. unfold remove_product. simpl.
  unfold dict_contains at 1. rewrite dict_get_set_same. simpl.
  rewrite dict_del_set_new by (now apply dict_contains_false).
  now destruct self.
Qed.

Lemma add_then_remove_witness :
  exists self',
    add_product laptop_bag sample_store = (Return tt, self')
    /\ remove_product "C2" self' = (Return tt, sample_store).
Proof.
  apply (add_then_remove sample_store laptop_bag). reflexivity.
Defined.

(** X7.  [remove_product] of an id the store holds returns and removes that
    entry alone: the listing loses exactly the product under the id and
    keeps the order of the others, one entry fewer is left, the id is gone,
    and a second [remove_product] of it raises [ProductNotFoundError]. *)
Theorem remove_product_present (self : Inventory) (product_id : string) :
  dict_wf (_products self) ->
  dict_contains product_id (_products self) = true ->
  exists self',
    remove_product product_id self = (Return tt, self')
    /\ _products self'
       = filter (fun kv => negb (String.eqb product_id (fst kv)))
                (_products self)
    /\ S (List.length (_products self')) = List.length (_products self)
    /\ dict_contains product_id (_products self') = false
    /\ (forall other, other <> product_id ->
          dict_get other (_products self') = dict_get other (_products self))
    /\ remove_product product_id self' = (Raise ProductNotFoundError, self').
Proof.
  intros Hwf Hin. unfold remove_product at 1. rewrite Hin. simpl.
  eexists. split; [reflexivity|]. simpl.
  assert (Hgone : dict_contains product_id
                    (dict_del product_id (_products self)) = false).
  { unfold dict_contains. now rewrite dict_get_del_same. }
  split; [now apply dict_del_filter|].
  split; [now apply dict_del_length|].
  split; [exact Hgone|]. split.
  - intros other Hne. now apply dict_get_del_other.
  - unfold remove_product. simpl. now rewrite Hgone.
Qed.

Lemma remove_product_present_witness :
  exists self',
    remove_product "G1" sample_store = (Return tt, self')
    /\ _products self'
       = filter (fun kv => negb (String.eqb "G1" (fst kv)))
                (_products sample_store)
    /\ S (List.length (_products self')) = 4%nat
    /\ dict_contains "G1" (_products self') = false
    /\ (forall other, other <> "G1" ->
          dict_get other (_products self')
          = dict_get other (_products sample_store))
    /\ remove_product "G1" self' = (Raise ProductNotFoundError, self').
Proof.
  apply (remove_product_present sample_store "G1"); [|reflexivity].
  unfold dict_wf. simpl.
  repeat (constructor; [simpl; intuition discriminate|]). constructor.
Defined.

(** ** Stocks that stay non-negative *)

Lemma stock_nonnegative_set (self : Inventory) (k : string) (p : Product) :
  stock_nonnegative self -> 0 <= _quantity_in_stock p ->
  stock_nonnegative (mkInventory (dict_set k p (_products self))).
Proof.
  unfold stock_nonnegative, list_all_products, dict_values. simpl.
  rewrite !Forall_map. intros H Hp. now apply dict_set_Forall.
Qed.

Lemma stock_nonnegative_get (self : Inventory) (k : string) (p : Product) :
  stock_nonnegative self -> dict_get k (_products self) = Some p ->
  0 <= _quantity_in_stock p.
Proof.
  unfold stock_nonnegative, list_all_products, dict_values.
  rewrite Forall_map, Forall_forall. intros H Hget.
  exact (H _ (dict_get_In _ _ _ Hget)).
Qed.

(** X8.  In a store where no stock is negative, no stock is negative after
    [sell_product] with any quantity (also a negative one), after
    [remove_product], after [remove_expired_products], after
    [restock_product] with an amount that is not negative, and after
    [add_product] of a product whose stock is not negative; the calls may
    return or raise. *)
Theorem stock_stays_nonnegative (self : Inventory) :
  stock_nonnegative self ->
  (forall product_id quantity,
     stock_nonnegative (snd (sell_product product_id quantity self)))
  /\ (forall product_id, stock_nonnegative (snd (remove_product product_id self)))
  /\ (forall today, stock_nonnegative (snd (remove_expired_products today self)))
  /\ (forall product_id amount, 0 <= amount ->
        stock_nonnegative (snd (restock_product product_id amount self)))
  /\ (forall product, 0 <= _quantity_in_stock product ->
        stock_nonnegative (snd (add_product product self))).
Proof.
  intros H. refine (conj _ (conj _ (conj _ (conj _ _)))).
  - intros k q. unfold sell_product, on_product.
    destruct (dict_get k (_products self)) as [p|] eqn:Hget; [|exact H].
    pose proof (stock_nonnegative_get _ _ _ H Hget) as Hp.
    destruct (sell q p) as [r p'] eqn:Hsell. simpl.
    apply stock_nonnegative_set; [exact H|].
    destruct (sell_inv _ _ _ _ Hsell) as [(_ & -> & _)|(_ & Hle & ->)];
      [exact Hp | simpl; lia].
  - intros k. unfold remove_product.
    destruct (dict_contains k (_products self)); simpl; [|exact H].
    unfold stock_nonnegative, list_all_products, dict_values in *. simpl.
    rewrite Forall_map in *. now apply dict_del_Forall.
  - intros today. unfold remove_expired_products.
    assert (G : forall ids d,
              Forall (fun kv : string * Product =>
                        0 <= _quantity_in_stock (snd kv)) d ->
              Forall (fun kv : string * Product =>
                        0 <= _quantity_in_stock (snd kv))
                     (snd (del_all ids d))).
    { induction ids as [|k ids IH]; intros d Hd; [exact Hd|].
      simpl. unfold bind, delitem.
      destruct (dict_contains k d); simpl; [|exact Hd].
      apply IH. now apply dict_del_Forall. }
    unfold stock_nonnegative, list_all_products, dict_values in *.
    rewrite Forall_map in H.
    specialize (G (expired_ids today (_products self)) _ H).
    destruct (del_all _ _). simpl in *. now rewrite Forall_map.
  - intros k amount Hamount. unfold restock_product, on_product.
    destruct (dict_get k (_products self)) as [p|] eqn:Hget; [|exact H].
    pose proof (stock_nonnegative_get _ _ _ H Hget) as Hp.
    unfold restock. simpl. apply stock_nonnegative_set; [exact H|]. simpl. lia.
  - intros product Hp. unfold add_product.
    destruct (dict_contains _ (_products self)); simpl; [exact H|].
    now apply stock_nonnegative_set.
Qed.

Lemma stock_stays_nonnegative_witness :
  stock_nonnegative (snd (sell_product "E1" (-2) sample_store))
  /\ stock_nonnegative (snd (restock_product "G1" 5 sample_store)).
Proof.
  assert (H : stock_nonnegative sample_store).
  { unfold stock_nonnegative. simpl. repeat constructor; simpl; lia. }
  destruct (stock_stays_nonnegative sample_store H)
    as (Hsell & _ & _ & Hrestock & _).
  split; [apply Hsell | apply Hrestock; lia].
Defined.

(** ** Searching, continued *)

Lemma prefix_spec (a b : string) :
  String.prefix a b = true <-> exists post, b = a ++ post.
Proof.
  revert b. induction a as [|c a IH]; intros b.
  - split; [intros _; now exists b | intros _; now destruct b].
  - destruct b as [|c' b]; simpl;
      [split; [discriminate | intros [post H]; discriminate]|].
    destruct (Ascii.ascii_dec c c') as [->|Hne].
    + rewrite IH. split; intros [post H]; exists post; [now rewrite H|].
      now injection H.
    + split; [discriminate|]. intros [post H]. injection H as -> _. congruence.
Qed.

(** [needle in hay] holds exactly when [hay] is some text, then [needle],
    then some text. *)
Lemma contains_spec (needle hay : string) :
  contains needle hay = true <-> exists pre post, hay = pre ++ needle ++ post.
Proof.
  induction hay as [|c hay IH].
  - cbn [contains]. rewrite orb_false_r, prefix_spec. split.
    + intros [post H]. now exists "", post.
    + intros ([|c pre] & post & H); [now exists post | discriminate].
  - cbn [contains]. rewrite orb_true_iff, prefix_spec, IH. split.
    + intros [[post H]|(pre & post & H)].
      * now exists "", post.
      * exists (String c pre), post. simpl. now rewrite H.
    + intros ([|c' pre] & post & H).
      * left. now exists post.
      * right. injection H as _ H. now exists pre, post.
Qed.

Lemma lower_char_twice (c : ascii) : lower_char (lower_char c) = lower_char c.
Proof.
  destruct c as [[] [] [] [] [] [] [] []]; reflexivity.
Qed.

Lemma lower_twice (s : string) : lower (lower s) = lower s.
Proof.
  induction s as [|c s IH]; simpl; [reflexivity|].
  now rewrite lower_char_twice, IH.
Qed.

(** X9.  For ASCII text, [search_by_name] returns the listing of the store
    with, in their order and as often as they occur, exactly the products
    whose name in lower case is some text, the query in lower case, some
    text; the case of the query does not matter, and the empty query returns
    every product. *)
Theorem search_by_name_spec (name : string) (self : Inventory) :
  is_ascii name = true ->
  Forall (fun p => is_ascii (_name p) = true) (list_all_products self) ->
  (forall matches : Product -> bool,
     (forall p, matches p = true <->
                exists pre post, lower (_name p) = pre ++ lower name ++ post) ->
     search_by_name name self = filter matches (list_all_products self))
  /\ search_by_name (lower name) self = search_by_name name self
  /\ search_by_name "" self = list_all_products self.
Proof.
  intros _ _. split; [|split].
  - intros matches Hm. unfold search_by_name, list_all_products.
    apply filter_ext. intros p.
    destruct (matches p) eqn:E.
    + apply contains_spec. now apply Hm.
    + apply not_true_is_false. intros H. apply contains_spec, Hm in H.
      congruence.
  - unfold search_by_name. now rewrite lower_twice.
  - unfold search_by_name, list_all_products.
    apply forallb_filter_id. apply forallb_forall. intros p _.
    now destruct (lower (_name p)).
Qed.

Lemma search_by_name_spec_witness :
  search_by_name "TOP" sample_store
  = filter (fun p => contains "top" (lower (_name p)))
           (list_all_products sample_store).
Proof.
  refine (proj1 (search_by_name_spec "TOP" sample_store eq_refl _)
            (fun p => contains "top" (lower (_name p))) _).
  - repeat constructor.
  - intros p. apply contains_spec.
Defined.

Lemma lower_class_name_inj (a b : class) :
  lower (class_name a) = lower (class_name b) -> a = b.
Proof. destruct a, b; simpl; intros H; try reflexivity; discriminate. Qed.

(** X10.  [search_by_type] compares the class name and the query without
    regard to case: a query that is a class name in any mix of cases returns
    the products of that class in the order of the store, any other query
    returns nothing, and the three classes share out the whole store. *)
Theorem search_by_type_spec (product_type : string) (self : Inventory) :
  (forall c, lower product_type = lower (class_name c) ->
             search_by_type product_type self = products_of_class c self)
  /\ ((forall c, lower product_type <> lower (class_name c)) ->
      search_by_type product_type self = [])
  /\ (List.length (search_by_type "Electronics" self)
      + List.length (search_by_type "Grocery" self)
      + List.length (search_by_type "Clothing" self)
      = List.length (list_all_products self))%nat.
Proof.
  split; [|split].
  - intros c Hc. unfold search_by_type, products_of_class, list_all_products.
    apply filter_ext. intros p. rewrite Hc.
    destruct (String.eqb_spec (lower (class_name (class_of p)))
                              (lower (class_name c))) as [E|Hne].
    + apply lower_class_name_inj in E. rewrite E. now destruct c.
    + destruct (class_of p), c; try reflexivity; exfalso; now apply Hne.
  - intros Hnone. unfold search_by_type.
    induction (dict_values (_products self)) as [|p l IH]; [reflexivity|].
    simpl. destruct (String.eqb_spec (lower (class_name (class_of p)))
                                     (lower product_type)) as [E|Hne];
      [|exact IH].
    exfalso. now apply (Hnone (class_of p)).
  - unfold search_by_type, list_all_products.
    induction (dict_values (_products self)) as [|p l IH]; [reflexivity|].
    destruct p as [i n pr q [b w|e|sz m]]; simpl in *; lia.
Qed.

Lemma search_by_type_spec_witness :
  search_by_type "gROCERY" sample_store = [milk; rice]
  /\ search_by_type "Furniture" sample_store = [].
Proof.
  destruct (search_by_type_spec "gROCERY" sample_store) as (Hclass & _ & _).
  destruct (search_by_type_spec "Furniture" sample_store) as (_ & Hnone & _).
  split.
  - exact (Hclass GroceryClass eq_refl).
  - apply Hnone. intros []; discriminate.
Defined.

(** ** Expiry *)

Lemma is_expired_later (today later expiry_date : date) :
  is_expired today expiry_date = true -> date_gt today later = false ->
  is_expired later expiry_date = true.
Proof.
  unfold is_expired. intros H Hlater. apply not_true_iff_false in Hlater.
  rewrite date_gt_spec in *. lia.
Qed.

(** X11.  A grocery is not expired on its expiry date; of the three cases,
    the date is after the expiry date, is the expiry date, or is before it,
    exactly one holds, and only the first makes the grocery expired; once
    expired it is expired on every date that is not earlier. *)
Theorem is_expired_order (today expiry_date : date) :
  is_expired expiry_date expiry_date = false
  /\ (is_expired today expiry_date = true
      \/ today = expiry_date
      \/ date_gt expiry_date today = true)
  /\ (is_expired today expiry_date = true -> today <> expiry_date)
  /\ (is_expired today expiry_date = true ->
      date_gt expiry_date today = false)
  /\ (forall later, is_expired today expiry_date = true ->
                    date_gt today later = false ->
                    is_expired later expiry_date = true).
Proof.
  unfold is_expired. repeat split.
  - apply not_true_is_false. rewrite date_gt_spec. lia.
  - destruct (date_gt today expiry_date) eqn:E1; [now left|].
    destruct (date_gt expiry_date today) eqn:E2; [now right; right|].
    right. left. apply not_true_iff_false in E1, E2.
    rewrite date_gt_spec in E1, E2. apply date_eq; lia.
  - intros H ->. apply date_gt_spec in H. lia.
  - intros H. apply not_true_is_false. rewrite date_gt_spec.
    apply date_gt_spec in H. lia.
  - intros later H Hlater. apply not_true_iff_false in Hlater.
    rewrite date_gt_spec in *. lia.
Qed.

Lemma is_expired_order_witness :
  is_expired d_2024_06_16 d_2024_06_15 = true
  /\ is_expired d_2030_01_01 d_2024_06_15 = true.
Proof.
  split; [reflexivity|].
  apply (proj2 (proj2 (proj2 (proj2
           (is_expired_order d_2024_06_16 d_2024_06_15)))) d_2030_01_01);
    reflexivity.
Defined.

(** ** The sweep, continued *)

Lemma sweep_filter (today : date) (self : Inventory) :
  dict_wf (_products self) ->
  remove_expired_products today self
    = (Return tt, mkInventory (filter (kept today) (_products self))).
Proof.
  intros Hwf. unfold remove_expired_products, expired_ids.
  now rewrite (del_all_filter (fun kv => expired_grocery today (snd kv))).
Qed.

Lemma filter_wf {V} (f : string * V -> bool) (d : dict V) :
  dict_wf d -> dict_wf (filter f d).
Proof.
  unfold dict_wf, dict_keys. induction d as [|kv d IH]; simpl; [auto|].
  intros Hnd. inversion Hnd as [|? ? Hnotin Hnd']; subst.
  destruct (f kv); simpl; [|auto].
  constructor; [|auto]. intros Hin. apply Hnotin.
  apply in_map_iff in Hin. destruct Hin as (x & <- & Hx).
  apply filter_In in Hx. apply in_map. tauto.
Qed.

Lemma filter_twice {A} (f : A -> bool) (l : list A) :
  filter f (filter f l) = filter f l.
Proof.
  induction l as [|a l IH]; simpl; [reflexivity|].
  destruct (f a) eqn:E; simpl; [rewrite E; now f_equal | exact IH].
Qed.

(** X12.  After a sweep no expired grocery is left, so a second sweep at the
    same date changes nothing; and a sweep of a store without an expired
    grocery leaves the store as it is. *)
Theorem sweep_idempotent (today : date) (self : Inventory) :
  dict_wf (_products self) ->
  (forall p, In p (list_all_products (snd (remove_expired_products today self)))
             -> expired_grocery today p = false)
  /\ remove_expired_products today (snd (remove_expired_products today self))
     = (Return tt, snd (remove_expired_products today self))
  /\ (Forall (fun p => expired_grocery today p = false)
             (list_all_products self) ->
      remove_expired_products today self = (Return tt, self)).
Proof.
  intros Hwf. rewrite (sweep_filter today self Hwf). simpl. split; [|split].
  - intros p Hin. unfold list_all_products, dict_values in Hin. simpl in Hin.
    apply in_map_iff in Hin. destruct Hin as (kv & <- & Hkv).
    apply filter_In in Hkv. unfold kept in Hkv.
    now apply negb_true_iff.
  - rewrite sweep_filter by (simpl; now apply filter_wf).
    simpl. now rewrite filter_twice.
  - intros Hnone. destruct self as [d]. simpl in *. do 2 f_equal.
    apply forallb_filter_id. apply forallb_forall. intros kv Hin.
    unfold kept. apply negb_true_iff.
    unfold list_all_products, dict_values in Hnone. simpl in Hnone.
    rewrite Forall_map, Forall_forall in Hnone. auto.
Qed.

Lemma sweep_idempotent_witness :
  remove_expired_products d_2024_06_16
    (snd (remove_expired_products d_2024_06_16 sample_store))
  = (Return tt, snd (remove_expired_products d_2024_06_16 sample_store)).
Proof.
  refine (proj1 (proj2 (sweep_idempotent d_2024_06_16 sample_store _))).
  unfold dict_wf. simpl.
  repeat (constructor; [simpl; intuition discriminate|]). constructor.
Defined.

(** X13.  The later the date of a sweep, the fewer entries it keeps: what a
    sweep keeps, every sweep at a date that is not later keeps too. *)
Theorem sweep_monotone (earlier later : date) (self : Inventory) :
  dict_wf (_products self) ->
  date_gt earlier later = false ->
  forall kv,
    In kv (_products (snd (remove_expired_products later self))) ->
    In kv (_products (snd (remove_expired_products earlier self))).
Proof.
  intros Hwf Hle kv. rewrite !sweep_filter by exact Hwf. simpl.
  rewrite !filter_In. intros [Hin Hkept]. split; [exact Hin|].
  unfold kept, expired_grocery in *. destruct (subclass (snd kv)); auto.
  apply negb_true_iff. apply negb_true_iff in Hkept.
  apply not_true_is_false. intros H. apply not_true_iff_false in Hkept.
  apply Hkept.
  exact (is_expired_later earlier later expiry_date H Hle).
Qed.

Lemma sweep_monotone_witness :
  In ("G2", rice) (_products (snd (remove_expired_products d_2024_06_15
                                      sample_store))).
Proof.
  apply (sweep_monotone d_2024_06_15 d_2024_06_16 sample_store).
  - unfold dict_wf. simpl.
    repeat (constructor; [simpl; intuition discriminate|]). constructor.
  - reflexivity.
  - simpl. auto.
Defined.

(** ** Loading, continued *)

(** X15.  When the records before some record of the file deserialize into
    products with fields of the annotated types and deserializing that
    record raises, [load_from_file] ends there with that exception, whichever
    it is, and the store holds the products of the records before it and none
    of its earlier contents; the records after it are not looked at. *)
Theorem load_first_failure (self : Inventory) (fs : filesystem)
    (filename : string) (before after : list json) (bad : json)
    (products : list Product) (e : exn) :
  read_json fs filename = Return (JArr (before ++ bad :: after)) ->
  Forall2 (fun item p => load_item item = Return p) before products ->
  load_item bad = Raise e ->
  load_from_file fs filename self
    = (Raise e, mkInventory (assign_all products dict_empty))
  /\ (forall other_self other_after fs',
        read_json fs' filename = Return (JArr (before ++ bad :: other_after)) ->
        load_from_file fs' filename other_self
        = load_from_file fs filename self).
Proof.
  intros Hread Hbefore Hbad.
  assert (E : forall fs0 self0 after0,
            read_json fs0 filename = Return (JArr (before ++ bad :: after0)) ->
            load_from_file fs0 filename self0
            = (Raise e, mkInventory (assign_all products dict_empty))).
  { intros fs0 self0 after0 H0. unfold load_from_file. rewrite H0.
    cbn [iterate].
    now rewrite (load_items_stop _ _ _ _ _ _ Hbefore Hbad). }
  split; [now apply (E fs self after)|].
  intros other_self other_after fs' H'.
  now rewrite (E fs' other_self other_after H'), (E fs self after Hread).
Qed.

Lemma load_first_failure_witness :
  load_from_file
    (file_with "inventory.json"
       (JArr [JObj (to_dict shirt); grocery_bad_date; furniture]))
    "inventory.json" sample_store
  = (Raise ValueError, mkInventory [("C1", shirt)]).
Proof.
  refine (proj1 (load_first_failure sample_store
    (file_with "inventory.json"
       (JArr [JObj (to_dict shirt); grocery_bad_date; furniture]))
    "inventory.json" [JObj (to_dict shirt)] [furniture] grocery_bad_date
    [shirt] ValueError eq_refl _ eq_refl)).
  repeat constructor.
Defined.

(** X16.  When the document of the file is not a list, the store is cleared
    all the same: [null], a boolean or a number raises [TypeError]; an object
    or a text that is not empty raises [AttributeError], its first key or
    character having no [get]; an empty list, object or text returns. *)
Theorem load_not_a_list (self : Inventory) (fs : filesystem)
    (filename : string) (document : json) :
  read_json fs filename = Return document ->
  (document = JNull \/ (exists b, document = JBool b)
   \/ (exists z, document = JInt z) \/ (exists f, document = JFloat f) ->
   load_from_file fs filename self = (Raise TypeError, Inventory_init))
  /\ ((exists kv fields, document = JObj (kv :: fields))
      \/ (exists c s, document = JStr (String c s)) ->
      load_from_file fs filename self = (Raise AttributeError, Inventory_init))
  /\ (document = JArr [] \/ document = JObj [] \/ document = JStr "" ->
      load_from_file fs filename self = (Return tt, Inventory_init)).
Proof.
  intros Hread. unfold load_from_file. rewrite Hread. repeat split.
  - intros [->|[[b ->]|[[z ->]|[f ->]]]]; reflexivity.
  - intros [(kv & fields & ->)|(c & s & ->)]; reflexivity.
  - intros [->|[->| ->]]; reflexivity.
Qed.

Lemma load_not_a_list_witness :
  load_from_file (file_with "inventory.json" (JInt 7)) "inventory.json"
    sample_store
  = (Raise TypeError, Inventory_init)
  /\ load_from_file
       (file_with "inventory.json" (JObj (to_dict laptop))) "inventory.json"
       sample_store
     = (Raise AttributeError, Inventory_init).
Proof.
  split.
  - refine (proj1 (load_not_a_list sample_store
      (file_with "inventory.json" (JInt 7)) "inventory.json" (JInt 7) eq_refl)
      _).
    right. right. left. now exists 7.
  - refine (proj1 (proj2 (load_not_a_list sample_store
      (file_with "inventory.json" (JObj (to_dict laptop))) "inventory.json"
      (JObj (to_dict laptop)) eq_refl)) _).
    left. exists ("type", JStr "Electronics"). eexists. reflexivity.
Defined.

(** ** The codec, continued *)

Lemma to_dict_wf (p : Product) : dict_wf (to_dict p).
Proof.
  unfold dict_wf.
  destruct p as [i n pr q [brand warranty | expiry | size material]]; simpl;
    repeat (constructor; [simpl; intuition discriminate|]); constructor.
Qed.

(** X18.  The record [to_dict] builds holds each key once and the class name
    under ["type"]; deserializing it gives the product back, with its class
    and all its fields, so two products with the same record are the same
    product. *)
Theorem codec_roundtrip (p : Product) :
  dict_wf (to_dict p)
  /\ discriminator (to_dict p) = JStr (class_name (class_of p))
  /\ dict_keys (to_dict p) = ("type" :: required_fields (class_of p))%list
  /\ load_item (JObj (to_dict p)) = Return p
  /\ (forall p', to_dict p' = to_dict p -> p' = p).
Proof.
  split; [apply to_dict_wf|]. split; [|split; [|split]].
  - now destruct p as [i n pr q [brand warranty | expiry | size material]].
  - now destruct p as [i n pr q [brand warranty | expiry | size material]].
  - apply load_item_to_dict.
  - intros p' H.
    assert (E : load_item (JObj (to_dict p')) = load_item (JObj (to_dict p)))
      by now rewrite H.
    rewrite !load_item_to_dict in E. now injection E.
Qed.

(** [from_dict] reads the keys of [required_fields] and nothing else. *)
Lemma getitem_agree (key : string) (data data' : dict json) :
  dict_get key data = dict_get key data' -> getitem key data = getitem key data'.
Proof. unfold getitem. now intros ->. Qed.

(** X19.  [from_dict] looks at no key besides the ones it reads: two records
    that agree on those keys deserialize alike, whatever else they hold, the
    ["type"] entry included. *)
Theorem from_dict_ignores_other_keys (cls : class) (data data' : dict json) :
  (forall key, In key (required_fields cls) ->
               dict_get key data = dict_get key data') ->
  from_dict cls data = from_dict cls data'.
Proof.
  intros H. unfold from_dict.
  rewrite (getitem_agree "product_id" data data'),
    (getitem_agree "name" data data'), (getitem_agree "price" data data'),
    (getitem_agree "quantity" data data')
    by (apply H; destruct cls; simpl; auto 6).
  destruct cls.
  - rewrite (getitem_agree "brand" data data'),
      (getitem_agree "warranty_years" data data')
      by (apply H; simpl; auto 8).
    reflexivity.
  - rewrite (getitem_agree "expiry_date" data data') by (apply H; simpl; auto 8).
    reflexivity.
  - rewrite (getitem_agree "size" data data'),
      (getitem_agree "material" data data')
      by (apply H; simpl; auto 8).
    reflexivity.
Qed.

Lemma from_dict_ignores_other_keys_witness :
  from_dict ClothingClass (("colour", JStr "blue") :: to_dict shirt)
  = from_dict ClothingClass (to_dict shirt).
Proof.
  apply (from_dict_ignores_other_keys ClothingClass).
  intros key Hin. simpl in Hin.
  repeat (destruct Hin as [<-|Hin]; [reflexivity|]). destruct Hin.
Defined.

(** ** Dates, continued *)

Lemma make_date_None (y m d : Z) :
  valid_ymd y m d = false -> make_date y m d = None.
Proof.
  intros H. unfold make_date.
  assert (G : forall b (e : valid_ymd y m d = b),
    b = false ->
    match b as b0 return valid_ymd y m d = b0 -> option date with
    | true => fun H0 => Some (mkdate y m d H0)
    | false => fun _ => None
    end e = None).
  { intros b e ->. reflexivity. }
  exact (G _ eq_refl H).
Qed.

Lemma make_date_Some (y m d : Z) (dt : date) :
  make_date y m d = Some dt -> year dt = y /\ month dt = m /\ day dt = d.
Proof.
  unfold make_date.
  assert (G : forall b (e : valid_ymd y m d = b),
    match b as b0 return valid_ymd y m d = b0 -> option date with
    | true => fun H0 => Some (mkdate y m d H0)
    | false => fun _ => None
    end e = Some dt -> year dt = y /\ month dt = m /\ day dt = d).
  { intros b e. destruct b; [|discriminate]. intros [= <-]. now simpl. }
  exact (G _ eq_refl).
Qed.

Lemma valid_ymd_bounds (y m d : Z) :
  valid_ymd y m d = true -> 1 <= y <= 9999 /\ 1 <= m <= 12 /\ 1 <= d <= 31.
Proof.
  unfold valid_ymd. rewrite !andb_true_iff, !Z.leb_le. intros H.
  assert (days_in_month y m <= 31).
  { unfold days_in_month.
    repeat match goal with |- context [if ?b then _ else _] => destruct b end;
      lia. }
  lia.
Qed.

Lemma orelse_None_r {A} (a : option A) : orelse a None = a.
Proof. now destruct a. Qed.

Section RegexMore.
Context {R : Type}.

(** A month from 1 to 12 printed with two digits, before a dash. *)
Lemma re_m_padded (m : Z) (k : Z -> string -> option R) (rest : string) :
  1 <= m <= 12 ->
  re_m (fun v => re_lit "-" (k v)) (fmt2 m (String "-" rest)) = k m rest.
Proof.
  intros H. small_cases m; cbv;
    match goal with |- context [k ?v rest] => now destruct (k v rest) end.
Qed.

(** Two digits that are no month: no alternative of [%m] goes on to the
    dash. *)
Lemma re_m_not_a_month (m : Z) (k : Z -> string -> option R) (rest : string) :
  m = 0 \/ 13 <= m <= 99 ->
  re_m (fun v => re_lit "-" (k v)) (fmt2 m rest) = None.
Proof.
  intros H. small_cases m; reflexivity.
Qed.

(** Two digits that are no day of any month: [%d] does not match, or leaves
    the second digit unread. *)
Lemma re_d_not_a_day (d : Z) (k : Z -> string -> option R) :
  d = 0 \/ 32 <= d <= 99 ->
  re_d k (fmt2 d "") = None
  \/ exists v c, re_d k (fmt2 d "") = k v (String c "").
Proof.
  intros H. small_cases d;
    first [left; reflexivity
          | right; cbv;
            match goal with
            | |- context [k ?v (String ?c "")] =>
                exists v, c; now destruct (k v (String c ""))
            end].
Qed.

Lemma digit_val_inv (c : ascii) (v : Z) :
  digit_val c = Some v -> c = digit_char v /\ 0 <= v <= 9.
Proof.
  intros H.
  destruct c as [[] [] [] [] [] [] [] []]; vm_compute in H;
    try discriminate H; injection H as <-; split; (reflexivity || lia).
Qed.

Lemma re_class_inv (lo hi : Z) (k : Z -> string -> option R) (s : string)
    (r : R) :
  re_class lo hi k s = Some r ->
  exists v s', s = String (digit_char v) s' /\ 0 <= v <= 9 /\ lo <= v <= hi
               /\ k v s' = Some r.
Proof.
  unfold re_class, digit_in. destruct s as [|c s']; [discriminate|].
  destruct (digit_val c) as [v|] eqn:E; [|discriminate].
  destruct (Z.leb_spec lo v); [|discriminate].
  destruct (Z.leb_spec v hi); [|discriminate]. simpl.
  apply digit_val_inv in E. destruct E as [-> Hv]. intros Hk.
  exists v, s'. repeat split; try lia; assumption.
Qed.

Lemma re_lit_inv (c : ascii) (k : string -> option R) (s : string) (r : R) :
  re_lit c k s = Some r -> exists s', s = String c s' /\ k s' = Some r.
Proof.
  unfold re_lit. destruct s as [|c' s']; [discriminate|].
  destruct (Ascii.eqb_spec c c') as [<-|]; [|discriminate].
  intros H. now exists s'.
Qed.

Lemma orelse_inv (a b : option R) (r : R) :
  orelse a b = Some r -> a = Some r \/ b = Some r.
Proof. destruct a; simpl; auto. Qed.

Lemma re_Y_inv (k : Z -> string -> option R) (s : string) (r : R) :
  re_Y k s = Some r ->
  exists y rest, 0 <= y <= 9999 /\ s = fmt4 y rest /\ k y rest = Some r.
Proof.
  unfold re_Y. intros H.
  apply re_class_inv in H. destruct H as (a & s1 & -> & Ha & _ & H).
  apply re_class_inv in H. destruct H as (b & s2 & -> & Hb & _ & H).
  apply re_class_inv in H. destruct H as (c & s3 & -> & Hc & _ & H).
  apply re_class_inv in H. destruct H as (d & s4 & -> & Hd & _ & H).
  exists (1000 * a + 100 * b + 10 * c + d), s4.
  split; [lia|]. split; [|exact H]. unfold fmt4.
  replace ((1000 * a + 100 * b + 10 * c + d) / 1000) with a
    by (Z.div_mod_to_equations; lia).
  replace ((1000 * a + 100 * b + 10 * c + d) / 100 mod 10) with b
    by (Z.div_mod_to_equations; lia).
  replace ((1000 * a + 100 * b + 10 * c + d) / 10 mod 10) with c
    by (Z.div_mod_to_equations; lia).
  replace ((1000 * a + 100 * b + 10 * c + d) mod 10) with d
    by (Z.div_mod_to_equations; lia).
  reflexivity.
Qed.

Lemma re_m_inv (k : Z -> string -> option R) (s : string) (r : R) :
  re_m k s = Some r ->
  exists m text rest,
    1 <= m <= 12 /\ In text (month_texts m) /\ s = text ++ rest
    /\ k m rest = Some r.
Proof.
  unfold re_m. intros H.
  apply orelse_inv in H. destruct H as [H|H]; [|apply orelse_inv in H;
                                                 destruct H as [H|H]].
  - apply re_lit_inv in H. destruct H as (s1 & -> & H).
    apply re_class_inv in H. destruct H as (v & s2 & -> & Hv & Hr & H).
    exists (10 + v), (fmt2 (10 + v) ""), s2.
    split; [lia|]. split; [now left|]. split; [|exact H].
    small_cases v; reflexivity.
  - apply re_lit_inv in H. destruct H as (s1 & -> & H).
    apply re_class_inv in H. destruct H as (v & s2 & -> & Hv & Hr & H).
    exists v, (fmt2 v ""), s2.
    split; [lia|]. split; [now left|]. split; [|exact H].
    small_cases v; reflexivity.
  - apply re_class_inv in H. destruct H as (v & s2 & -> & Hv & Hr & H).
    exists v, (fmt1 v ""), s2.
    split; [lia|]. split; [|split; [reflexivity | exact H]].
    small_cases v; simpl; auto.
Qed.

Lemma re_d_inv (k : Z -> string -> option R) (s : string) (r : R) :
  re_d k s = Some r ->
  exists d text rest,
    1 <= d <= 31 /\ In text (day_texts d) /\ s = text ++ rest
    /\ k d rest = Some r.
Proof.
  unfold re_d. intros H.
  apply orelse_inv in H. destruct H as [H|H]; [|apply orelse_inv in H;
    destruct H as [H|H]; [|apply orelse_inv in H;
    destruct H as [H|H]; [|apply orelse_inv in H; destruct H as [H|H]]]].
  - apply re_lit_inv in H. destruct H as (s1 & -> & H).
    apply re_class_inv in H. destruct H as (v & s2 & -> & Hv & Hr & H).
    exists (30 + v), (fmt2 (30 + v) ""), s2.
    split; [lia|]. split; [now left|]. split; [|exact H].
    small_cases v; reflexivity.
  - apply re_class_inv in H. destruct H as (t & s1 & -> & Ht & Hrt & H).
    apply re_class_inv in H. destruct H as (v & s2 & -> & Hv & Hr & H).
    exists (10 * t + v), (fmt2 (10 * t + v) ""), s2.
    split; [lia|]. split; [now left|]. split; [|exact H].
    small_cases t; small_cases v; reflexivity.
  - apply re_lit_inv in H. destruct H as (s1 & -> & H).
    apply re_class_inv in H. destruct H as (v & s2 & -> & Hv & Hr & H).
    exists v, (fmt2 v ""), s2.
    split; [lia|]. split; [now left|]. split; [|exact H].
    small_cases v; reflexivity.
  - apply re_class_inv in H. destruct H as (v & s2 & -> & Hv & Hr & H).
    exists v, (fmt1 v ""), s2.
    split; [lia|]. split; [|split; [reflexivity | exact H]].
    small_cases v; simpl; auto.
  - apply re_lit_inv in H. destruct H as (s1 & -> & H).
    apply re_class_inv in H. destruct H as (v & s2 & -> & Hv & Hr & H).
    exists v, (String " " (fmt1 v "")), s2.
    split; [lia|]. split; [|split; [reflexivity | exact H]].
    small_cases v; simpl; auto.
Qed.
End RegexMore.

Lemma make_date_out_of_range (y m d : Z) :
  ~ (1 <= m <= 12 /\ 1 <= d <= 31) -> make_date y m d = None.
Proof.
  intros H. apply make_date_None.
  destruct (valid_ymd y m d) eqn:E; [|reflexivity].
  apply valid_ymd_bounds in E. tauto.
Qed.

(** X20.  On a text [YYYY-MM-DD] of two-digit month and day, [strptime]
    returns the date of these three numbers when the calendar has it, and
    raises [ValueError] otherwise: for the year 0000, a month that is not 01
    to 12, or a day the month does not have. *)
Theorem strptime_padded (y m d : Z) :
  0 <= y <= 9999 -> 0 <= m <= 99 -> 0 <= d <= 99 ->
  strptime (padded y m d)
  = match make_date y m d with
    | Some dt => Return dt
    | None => Raise ValueError
    end.
Proof.
  intros Hy Hm Hd. unfold strptime, match_format, padded.
  rewrite re_Y_fmt4 by exact Hy. rewrite re_lit_same.
  destruct (Z_le_dec 1 m) as [Hm1|Hm1]; [destruct (Z_le_dec m 12) as [Hm2|Hm2]|].
  - rewrite (re_m_padded m
               (fun v => re_d (fun d0 rest => Some (y, v, d0, rest))))
      by lia.
    destruct (Z_le_dec 1 d) as [Hd1|Hd1];
      [destruct (Z_le_dec d 31) as [Hd2|Hd2]|].
    + now rewrite (re_d_fmt2 d _ "" (y, m, d, "")) by (lia || reflexivity).
    + rewrite make_date_out_of_range by lia.
      destruct (re_d_not_a_day d (fun d0 rest => Some (y, m, d0, rest)))
        as [->|(v & c & ->)]; [lia | reflexivity | reflexivity].
    + rewrite make_date_out_of_range by lia.
      destruct (re_d_not_a_day d (fun d0 rest => Some (y, m, d0, rest)))
        as [->|(v & c & ->)]; [lia | reflexivity | reflexivity].
  - rewrite make_date_out_of_range by lia.
    now rewrite (re_m_not_a_month m
                   (fun v => re_d (fun d0 rest => Some (y, v, d0, rest))))
      by lia.
  - rewrite make_date_out_of_range by lia.
    now rewrite (re_m_not_a_month m
                   (fun v => re_d (fun d0 rest => Some (y, v, d0, rest))))
      by lia.
Qed.

Lemma strptime_padded_witness :
  strptime "2023-02-29" = Raise ValueError
  /\ strptime "2024-02-29" = Return (mkdate 2024 2 29 eq_refl).
Proof.
  split.
  - apply (strptime_padded 2023 2 29); lia.
  - apply (strptime_padded 2024 2 29); lia.
Defined.

Lemma append_empty (s : string) : s ++ "" = s.
Proof. induction s as [|c s IH]; simpl; [reflexivity | now rewrite IH]. Qed.

(** The month in any of its texts, before a dash. *)
Lemma re_m_texts {R} (m : Z) (text : string) (k : Z -> string -> option R)
    (rest : string) :
  1 <= m <= 12 -> In text (month_texts m) ->
  re_m (fun v => re_lit "-" (k v)) (text ++ String "-" rest) = k m rest.
Proof.
  intros H Hin. small_cases m; simpl in Hin; intuition subst; cbv;
    first [reflexivity
          | match goal with
            | |- context [k ?v rest] => now destruct (k v rest)
            end].
Qed.

(** The day in any of its texts, at the end of the text. *)
Lemma re_d_texts {R} (d : Z) (text : string) (k : Z -> string -> option R)
    (r : R) :
  1 <= d <= 31 -> In text (day_texts d) -> k d "" = Some r ->
  re_d k text = Some r.
Proof.
  intros H Hin Hk. small_cases d; simpl in Hin; intuition subst; cbv;
    now rewrite Hk.
Qed.

(** X21.  Every text that writes a date as the year in four digits, a dash,
    the month, a dash and the day, the month and the day in two digits or,
    below ten, in one digit (the day also as a blank and one digit), with
    nothing before or after, makes [strptime] return that date; and an ASCII
    text for which [strptime] returns a date is such a text of that date. *)
Theorem strptime_accepts (s : string) (dt : date) :
  ((exists month_text day_text,
      In month_text (month_texts (month dt))
      /\ In day_text (day_texts (day dt))
      /\ s = fmt4 (year dt) (String "-" (month_text ++ String "-" day_text)))
   -> strptime s = Return dt)
  /\ (is_ascii s = true -> strptime s = Return dt ->
      exists month_text day_text,
        In month_text (month_texts (month dt))
        /\ In day_text (day_texts (day dt))
        /\ s = fmt4 (year dt)
                 (String "-" (month_text ++ String "-" day_text))).
Proof.
  split.
  - intros (mt & dtx & Hmt & Hdt & ->).
    destruct (date_bounds dt) as (Hy & Hm & Hd).
    unfold strptime, match_format.
    rewrite re_Y_fmt4 by lia. rewrite re_lit_same.
    rewrite (re_m_texts (month dt) mt
               (fun v => re_d (fun d0 rest => Some (year dt, v, d0, rest))))
      by assumption.
    rewrite (re_d_texts (day dt) dtx _ (year dt, month dt, day dt, ""))
      by (assumption || reflexivity).
    now rewrite make_date_self.
  - unfold strptime. intros _ H.
    destruct (match_format s) as [[[[y m] d] [|c rest]]|] eqn:E;
      try discriminate.
    destruct (make_date y m d) as [dt'|] eqn:Hdate; [|discriminate].
    injection H as ->. apply make_date_Some in Hdate.
    destruct Hdate as (Ey & Em & Ed).
    unfold match_format in E.
    apply re_Y_inv in E. destruct E as (y' & s1 & Hy & -> & E).
    apply re_lit_inv in E. destruct E as (s2 & -> & E).
    apply re_m_inv in E. destruct E as (m' & mt & s3 & Hm & Hmt & -> & E).
    apply re_lit_inv in E. destruct E as (s4 & -> & E).
    apply re_d_inv in E. destruct E as (d' & dtx & s5 & Hd & Hdt & -> & E).
    injection E as -> -> -> ->.
    exists mt, dtx. rewrite Ey, Em, Ed, append_empty. auto.
Qed.

Lemma strptime_accepts_witness :
  (exists month_text day_text,
     In month_text (month_texts 2)
     /\ In day_text (day_texts 29)
     /\ "2020-2-29"
        = fmt4 2020 (String "-" (month_text ++ String "-" day_text)))
  /\ strptime "2024-6- 5" = Return (mkdate 2024 6 5 eq_refl).
Proof.
  split.
  - apply (proj2 (strptime_accepts "2020-2-29" d_2020_02_29));
      reflexivity.
  - apply (proj1 (strptime_accepts "2024-6- 5" (mkdate 2024 6 5 eq_refl))).
    exists "6", " 5". split; [right; left; reflexivity|].
    split; [right; right; left; reflexivity | reflexivity].
Defined.

(** ** Saving and loading from any reachable store *)

(** X22.  Every store reached from a new inventory by any sequence of calls,
    returning or raising, comes back unchanged, order included, when it is
    saved and the file is loaded, into whatever store. *)
Theorem reachable_roundtrip (self target : Inventory) (fs : filesystem)
    (filename : string) :
  reachable self ->
  load_from_file (save_to_file filename self fs) filename target
    = (Return tt, self).
Proof.
  intros Hreach. apply reachable_invariant, store_invariant_dict in Hreach.
  destruct Hreach as [Hwf Hk].
  unfold load_from_file, save_to_file, read_json, write_file.
  rewrite String.eqb_refl. cbn [iterate].
  rewrite load_items_saved; [now destruct self | exact Hk | exact Hwf].
Qed.

Lemma reachable_roundtrip_witness :
  load_from_file
    (save_to_file "inventory.json"
       (snd (run (SellProduct "E1" 3) (snd (run (AddProduct laptop)
                                                Inventory_init))))
       no_files)
    "inventory.json" sample_store
  = (Return tt, mkInventory [("E1", set_quantity 2 laptop)]).
Proof.
  apply (reachable_roundtrip
           (snd (run (SellProduct "E1" 3)
                     (snd (run (AddProduct laptop) Inventory_init))))
           sample_store no_files "inventory.json").
  repeat apply reachable_step. apply reachable_init.
Defined.

(** ** Deserializing, then serializing *)

Lemma as_str_inv (v : json) (s : string) : as_str v = Return s -> v = JStr s.
Proof. destruct v; simpl; intros [= <-] || discriminate; reflexivity. Qed.

Lemma as_int_inv (v : json) (z : Z) : as_int v = Return z -> v = JInt z.
Proof. destruct v; simpl; intros [= <-] || discriminate; reflexivity. Qed.

Lemma as_number_inv (v : json) (n : number) :
  as_number v = Return n -> v = json_of_number n.
Proof. destruct v; simpl; intros [= <-] || discriminate; reflexivity. Qed.

Lemma Product_init_inv (product_id name price quantity : json) (sub : details)
    (p : Product) :
  Product_init product_id name price quantity sub = Return p ->
  product_id = JStr (_product_id p) /\ name = JStr (_name p)
  /\ price = json_of_number (_price p)
  /\ quantity = JInt (_quantity_in_stock p) /\ subclass p = sub.
Proof.
  unfold Product_init.
  destruct (as_str product_id) as [i| |] eqn:Ei; try discriminate.
  destruct (as_str name) as [n| |] eqn:En; try discriminate.
  destruct (as_number price) as [pr| |] eqn:Ep; try discriminate.
  destruct (as_int quantity) as [q| |] eqn:Eq; try discriminate.
  simpl. intros [= <-]. simpl.
  apply as_str_inv in Ei, En. apply as_number_inv in Ep. apply as_int_inv in Eq.
  now subst.
Qed.

(** X23.  When [from_dict] returns a product, [to_dict] of that product
    holds, under every key [from_dict] read, the value the record had, except
    that the expiry date of a [Grocery] is written again with two-digit
    month and day; and ["type"] holds the name of the class used. *)
Theorem to_dict_from_dict (cls : class) (data : dict json) (p : Product) :
  from_dict cls data = Return p ->
  class_of p = cls
  /\ discriminator (to_dict p) = JStr (class_name cls)
  /\ (forall key, In key (required_fields cls) -> key <> "expiry_date" ->
        dict_get key (to_dict p) = dict_get key data)
  /\ (cls = GroceryClass ->
      exists text d,
        dict_get "expiry_date" data = Some (JStr text)
        /\ strptime text = Return d
        /\ dict_get "expiry_date" (to_dict p) = Some (JStr (isoformat d))).
Proof.
  unfold from_dict, getitem.
  destruct (dict_get "product_id" data) as [v1|] eqn:E1; [|discriminate].
  destruct (dict_get "name" data) as [v2|] eqn:E2; [|discriminate].
  destruct (dict_get "price" data) as [v3|] eqn:E3; [|discriminate].
  destruct (dict_get "quantity" data) as [v4|] eqn:E4; [|discriminate].
  cbn [obind]. destruct cls.
  - destruct (dict_get "brand" data) as [v5|] eqn:E5; [|discriminate].
    destruct (dict_get "warranty_years" data) as [v6|] eqn:E6; [|discriminate].
    cbn [obind]. unfold Electronics_init. intros H.
    apply Product_init_inv in H. destruct H as (-> & -> & -> & -> & Hs).
    unfold class_of, discriminator, to_dict. rewrite Hs.
    repeat split; try discriminate.
    intros key Hin _. simpl in Hin.
    repeat (destruct Hin as [<-|Hin]; [simpl; congruence|]). destruct Hin.
  - destruct (dict_get "expiry_date" data) as [v5|] eqn:E5; [|discriminate].
    cbn [obind]. unfold Grocery_init, strptime_value.
    destruct v5 as [| | | |text| |]; try discriminate.
    destruct (strptime text) as [d| |] eqn:Ed; try discriminate.
    cbn [obind]. intros H.
    apply Product_init_inv in H. destruct H as (-> & -> & -> & -> & Hs).
    unfold class_of, discriminator, to_dict. rewrite Hs.
    repeat split.
    + intros key Hin Hne. simpl in Hin.
      repeat (destruct Hin as [<-|Hin]; [simpl; congruence|]). destruct Hin.
    + intros _. exists text, d. repeat split. exact Ed.
  - destruct (dict_get "size" data) as [v5|] eqn:E5; [|discriminate].
    destruct (dict_get "material" data) as [v6|] eqn:E6; [|discriminate].
    cbn [obind]. unfold Clothing_init. intros H.
    apply Product_init_inv in H. destruct H as (-> & -> & -> & -> & Hs).
    unfold class_of, discriminator, to_dict. rewrite Hs.
    repeat split; try discriminate.
    intros key Hin _. simpl in Hin.
    repeat (destruct Hin as [<-|Hin]; [simpl; congruence|]). destruct Hin.
Qed.

Lemma to_dict_from_dict_witness :
  exists text d,
    dict_get "expiry_date"
      [ ("product_id", JStr "G4"); ("name", JStr "Tea"); ("price", JInt 5);
        ("quantity", JInt 2); ("expiry_date", JStr "2024-6-15") ]
    = Some (JStr text)
    /\ strptime text = Return d
    /\ dict_get "expiry_date"
         (to_dict (mkProduct "G4" "Tea" (NInt 5) 2 (Grocery d_2024_06_15)))
       = Some (JStr (isoformat d)).
Proof.
  apply (proj2 (proj2 (proj2 (to_dict_from_dict GroceryClass
    [ ("product_id", JStr "G4"); ("name", JStr "Tea"); ("price", JInt 5);
      ("quantity", JInt 2); ("expiry_date", JStr "2024-6-15") ]
    (mkProduct "G4" "Tea" (NInt 5) 2 (Grocery d_2024_06_15)) eq_refl)))).
  reflexivity.
Defined.

Lemma codec_roundtrip_witness :
  load_item (JObj (to_dict milk)) = Return milk
  /\ set_quantity 10 milk = milk.
Proof.
  split.
  - exact (proj1 (proj2 (proj2 (proj2 (codec_roundtrip milk))))).
  - apply (proj2 (proj2 (proj2 (proj2 (codec_roundtrip milk))))).
    reflexivity.
Defined.
